(** * Book Rental API: a shallow embedding of [api.py] and its properties

    The service keeps two module-level tables, [books] (the catalog) and
    [rentals] (the ledger), both Python dictionaries whose values are
    themselves dictionaries.  Five request handlers read and mutate them,
    and [load] fills the catalog from [books.json] at start-up.

    The embedding keeps the dynamic nature of the data: a book and a
    rental are dictionaries from field names to Python values, a missing
    field raises [KeyError], an ill-typed operand raises [TypeError], and
    a handler is a computation in a state-and-exception monad over the two
    tables.  JSON numbers are Python integers or binary64 floats; the
    floats are those of [SpecFloat] with 53 bits of precision. *)

From Stdlib Require Import ZArith List String Bool Lia SpecFloat.
Import ListNotations.

Local Open Scope string_scope.
Local Open Scope Z_scope.
Local Open Scope list_scope.

Set Implicit Arguments.
Set Warnings "-register-all".

(* ===================================================================== *)
(** ** Python dictionaries *)
(* ===================================================================== *)

(** Keys of a dictionary are compared with [==]. *)
Class Hashable (K : Type) := key_eqb : K -> K -> bool.

(** On the key types used here [==] decides equality. *)
Class HashableLaws (K : Type) {HK : Hashable K} :=
  key_eqb_spec : forall x y : K, reflect (x = y) (key_eqb x y).
Arguments HashableLaws K {HK}.

#[export] Instance string_Hashable : Hashable string := String.eqb.

(** A dictionary is insertion ordered: iteration (and [values()]) visits
    the entries in the order in which their keys were first inserted, and
    assigning to a key that is present replaces the value in place. *)
Module Dict.
Section Ops.
Context {K V : Type} `{Hashable K}.

Definition t := list (K * V).

(** [d.get(k)] *)
Fixpoint get (k : K) (d : t) : option V :=
  match d with
  | [] => None
  | (k', v) :: rest => if key_eqb k k' then Some v else get k rest
  end.

(** [k in d] *)
Definition mem (k : K) (d : t) : bool :=
  match get k d with Some _ => true | None => false end.

(** [d[k] = v] *)
Fixpoint set (k : K) (v : V) (d : t) : t :=
  match d with
  | [] => [(k, v)]
  | (k', v') :: rest =>
      if key_eqb k k' then (k', v) :: rest else (k', v') :: set k v rest
  end.

(** [d.keys()] and [d.values()] *)
Definition keys (d : t) : list K := map fst d.
Definition values (d : t) : list V := map snd d.

End Ops.
Arguments t : clear implicits.
End Dict.

(* ===================================================================== *)
(** ** Python values, exceptions and results *)
(* ===================================================================== *)

(** The values that [json.load] produces and that the handlers store. *)
Inductive value : Type :=
| VNone
| VBool (b : bool)
| VInt (z : Z)
| VStr (s : string)
| VList (items : list value)
| VDict (fields : list (string * value))
| VFloat (x : spec_float).

(** Hashable values as dictionary keys.  [True == 1] and [False == 0] in
    Python, so a boolean and the integer it equals are one key, and so is
    a float with an integral value ([2.0 == 2]).  [KFloat] is for the
    other floats; [json.load] gives one and the same object for every
    [NaN], so as a key [NaN] is found again. *)
Inductive key : Type :=
| KNone
| KInt (z : Z)
| KStr (s : string)
| KFloat (x : spec_float).

(** Floats are binary64. *)
Definition prec : Z := 53.
Definition emax : Z := 1024.

(** Structural equality of two floats. *)
Definition float_same (x y : spec_float) : bool :=
  match x, y with
  | S754_zero s, S754_zero s' => Bool.eqb s s'
  | S754_infinity s, S754_infinity s' => Bool.eqb s s'
  | S754_nan, S754_nan => true
  | S754_finite s m e, S754_finite s' m' e' =>
      Bool.eqb s s' && Pos.eqb m m' && Z.eqb e e'
  | _, _ => false
  end.

Definition key_eq (a b : key) : bool :=
  match a, b with
  | KNone, KNone => true
  | KInt x, KInt y => Z.eqb x y
  | KStr x, KStr y => String.eqb x y
  | KFloat x, KFloat y => float_same x y
  | _, _ => false
  end.

#[export] Instance key_Hashable : Hashable key := key_eq.

Inductive exn : Type :=
| KeyError
| TypeError
| AttributeError
| OSError.

(** What evaluating a piece of handler code yields: a value, an
    [HTTPException] (which FastAPI turns into the response with that
    status code), or another exception. *)
Inductive result (A : Type) : Type :=
| Ok (a : A)
| HTTPException (status_code : Z) (detail : string)
| Raise (e : exn).
Arguments Ok {A} a.
Arguments HTTPException {A} status_code detail.
Arguments Raise {A} e.

Definition rbind {A B} (r : result A) (k : A -> result B) : result B :=
  match r with
  | Ok a => k a
  | HTTPException c d => HTTPException c d
  | Raise e => Raise e
  end.

Declare Scope py_scope.
Delimit Scope py_scope with py.
Notation "x <~ r ;; k" := (rbind r (fun x => k))
  (at level 61, r at next level, right associativity) : py_scope.

Definition is_ok {A} (r : result A) : bool :=
  match r with Ok _ => true | _ => false end.

(** The status code that goes with an outcome: 200 for a value, the code
    of an [HTTPException], 500 for any other exception. *)
Definition status {A} (r : result A) : Z :=
  match r with
  | Ok _ => 200
  | HTTPException c _ => c
  | Raise _ => 500
  end.

Section Primitives.
Local Open Scope py_scope.

(** [d[k]] *)
Definition getitem (d : Dict.t string value) (k : string) : result value :=
  match Dict.get k d with
  | Some v => Ok v
  | None => Raise KeyError
  end.

(** The integer a float equals, if it equals one. *)
Definition float_integer (x : spec_float) : option Z :=
  match x with
  | S754_zero _ => Some 0
  | S754_finite s m e =>
      let magnitude :=
        if 0 <=? e then Some (Zpos m * 2 ^ e)
        else if Zpos m mod 2 ^ (- e) =? 0 then Some (Zpos m / 2 ^ (- e))
        else None in
      match magnitude with
      | Some z => Some (if s then - z else z)
      | None => None
      end
  | S754_infinity _ | S754_nan => None
  end.

(** [hash(v)], as needed to use [v] as a key. *)
Definition hash (v : value) : result key :=
  match v with
  | VNone => Ok KNone
  | VBool b => Ok (KInt (if b then 1 else 0))
  | VInt z => Ok (KInt z)
  | VStr s => Ok (KStr s)
  | VFloat x =>
      match float_integer x with
      | Some z => Ok (KInt z)
      | None => Ok (KFloat x)
      end
  | VList _ | VDict _ => Raise TypeError
  end.

(** The integer a value denotes: an [int], or a [bool] ([True] is 1). *)
Definition as_int (v : value) : option Z :=
  match v with
  | VInt z => Some z
  | VBool b => Some (if b then 1 else 0)
  | _ => None
  end.

(** The operands that arithmetic and ordering accept. *)
Inductive number : Type :=
| NInt (z : Z)
| NFloat (x : spec_float).

Definition as_number (v : value) : option number :=
  match v with
  | VFloat x => Some (NFloat x)
  | _ => match as_int v with
         | Some z => Some (NInt z)
         | None => None
         end
  end.

Definition num_value (n : number) : value :=
  match n with
  | NInt z => VInt z
  | NFloat x => VFloat x
  end.

(** The float an integer literal is converted to in mixed arithmetic
    (to nearest, ties to even). *)
Definition float_of_Z (n : Z) : spec_float :=
  binary_normalize prec emax n 0 false.

(** How a float compares with an integer; Python compares the exact
    values, and [NaN] compares with nothing. *)
Definition float_compare_Z (x : spec_float) (z : Z) : option comparison :=
  match x with
  | S754_nan => None
  | S754_infinity s => Some (if s then Lt else Gt)
  | S754_zero _ => Some (0 ?= z)
  | S754_finite s m e =>
      let sm := if s then Zneg m else Zpos m in
      Some (if 0 <=? e then sm * 2 ^ e ?= z else sm ?= z * 2 ^ (- e))
  end.

(** [n <= lit], [n + lit] and [n - lit] for an integer literal [lit]. *)
Definition num_le (n : number) (lit : Z) : bool :=
  match n with
  | NInt z => z <=? lit
  | NFloat x =>
      match float_compare_Z x lit with
      | Some Lt | Some Eq => true
      | Some Gt | None => false
      end
  end.

Definition num_add (n : number) (lit : Z) : number :=
  match n with
  | NInt z => NInt (z + lit)
  | NFloat x => NFloat (SFadd prec emax x (float_of_Z lit))
  end.

Definition num_sub (n : number) (lit : Z) : number :=
  match n with
  | NInt z => NInt (z - lit)
  | NFloat x => NFloat (SFsub prec emax x (float_of_Z lit))
  end.

(** [v <= n] for an integer literal [n] *)
Definition py_le (v : value) (n : Z) : result bool :=
  match as_number v with
  | Some m => Ok (num_le m n)
  | None => Raise TypeError
  end.

(** [v + n] for an integer literal [n] *)
Definition py_add (v : value) (n : Z) : result value :=
  match as_number v with
  | Some m => Ok (num_value (num_add m n))
  | None => Raise TypeError
  end.

(** [v - n] for an integer literal [n] *)
Definition py_sub (v : value) (n : Z) : result value :=
  match as_number v with
  | Some m => Ok (num_value (num_sub m n))
  | None => Raise TypeError
  end.

(** [v == s] for a string [s] *)
Definition py_eq_str (v : value) (s : string) : bool :=
  match v with
  | VStr s' => String.eqb s' s
  | _ => false
  end.

(** [v is None] *)
Definition is_none (v : value) : bool :=
  match v with VNone => true | _ => false end.

(** [any(p(x) for x in xs)]: stops at the first true element. *)
Fixpoint py_any {A} (p : A -> result bool) (xs : list A) : result bool :=
  match xs with
  | [] => Ok false
  | x :: rest => b <~ p x ;; if b then Ok true else py_any p rest
  end.

(** [[x for x in xs if p(x)]] *)
Fixpoint py_filter {A} (p : A -> result bool) (xs : list A)
  : result (list A) :=
  match xs with
  | [] => Ok []
  | x :: rest =>
      b <~ p x ;;
      kept <~ py_filter p rest ;;
      Ok (if b then x :: kept else kept)
  end.
End Primitives.

(* ===================================================================== *)
(** ** The two tables and the handler monad *)
(* ===================================================================== *)

(** A book and a rental are plain dictionaries ([books: dict[str, dict]],
    [rentals: dict[str, dict]]).  The class [Book] of the source names the
    fields a book is meant to have; nothing validates against it.  Catalog
    keys are whatever [book["isbn"]] was in the loaded document. *)
Abbreviation Book := (Dict.t string value).
Abbreviation Rental := (Dict.t string value).

Record state : Type := {
  books : Dict.t key Book;
  rentals : Dict.t string Rental
}.

(* --------------------------------------------------------------------- *)
(** *** Catalog load *)

(** What [open] followed by [json.load] gives: an exception (no file, no
    valid JSON) or the parsed document. *)
Inductive source : Type :=
| Unreadable
| Document (data : value).

Section Load.
Local Open Scope py_scope.

(** [data.get("books", [])]; only a dictionary has [get]. *)
Definition get_books (data : value) : result value :=
  match data with
  | VDict top =>
      Ok (match Dict.get "books" top with
          | Some v => v
          | None => VList []
          end)
  | _ => Raise AttributeError
  end.

(** The elements a [for] visits: of a list its items, of a dictionary
    its keys, of a string its characters. *)
Definition py_iter (v : value) : result (list value) :=
  match v with
  | VList items => Ok items
  | VDict fields => Ok (map (fun kv => VStr (fst kv)) fields)
  | VStr s =>
      Ok (map (fun c => VStr (String c EmptyString)) (list_ascii_of_string s))
  | _ => Raise TypeError
  end.

(** [v[field]] for a string [field]: only a dictionary accepts it. *)
Definition subscript (v : value) (field : string) : result value :=
  match v with
  | VDict fields => getitem fields field
  | _ => Raise TypeError
  end.

(** [{book["isbn"]: book for book in entries}], [catalog] being the
    dictionary built so far. *)
Fixpoint index_by_isbn (entries : list value) (catalog : Dict.t key Book)
  : result (Dict.t key Book) :=
  match entries with
  | [] => Ok catalog
  | entry :: rest =>
      isbn <~ subscript entry "isbn" ;;
      k <~ hash isbn ;;
      match entry with
      | VDict fields => index_by_isbn rest (Dict.set k fields catalog)
      | _ => Raise TypeError
      end
  end.

(** The body of the loop over [books.values()]. *)
Definition fill_available (b : Book) : result Book :=
  if negb (Dict.mem "available_copies" b) then
    total <~ getitem b "totalCopies" ;;
    Ok (Dict.set "available_copies" total b)
  else Ok b.

(** [for book in books.values(): ...] *)
Fixpoint fill_all (catalog : Dict.t key Book) : result (Dict.t key Book) :=
  match catalog with
  | [] => Ok []
  | (k, b) :: rest =>
      b' <~ fill_available b ;;
      rest' <~ fill_all rest ;;
      Ok ((k, b') :: rest')
  end.

(** The [try] block of [load]. *)
Definition load_try (src : source) : result (Dict.t key Book) :=
  match src with
  | Unreadable => Raise OSError
  | Document data =>
      listed <~ get_books data ;;
      entries <~ py_iter listed ;;
      catalog <~ index_by_isbn entries [] ;;
      fill_all catalog
  end.

(** [load]: the value of the global [books] once it has run.  Whatever
    the [try] block raises is caught and the catalog is then empty. *)
Definition load (src : source) : Dict.t key Book :=
  match load_try src with
  | Ok catalog => catalog
  | HTTPException _ _ => []
  | Raise _ => []
  end.

End Load.

(* --------------------------------------------------------------------- *)
(** *** The handler monad *)

(** A handler runs against the tables, may mutate them, and ends with a
    result; mutations made before an exception is raised persist. *)
Definition M (A : Type) : Type := state -> state * result A.

Definition ret {A} (a : A) : M A := fun st => (st, Ok a).

Definition bind {A B} (m : M A) (k : A -> M B) : M B :=
  fun st =>
    match m st with
    | (st', Ok a) => k a st'
    | (st', HTTPException c d) => (st', HTTPException c d)
    | (st', Raise e) => (st', Raise e)
    end.

Definition lift {A} (r : result A) : M A := fun st => (st, r).

Definition raise_http {A} (status_code : Z) (detail : string) : M A :=
  fun st => (st, HTTPException status_code detail).

Definition gets {A} (f : state -> A) : M A := fun st => (st, Ok (f st)).

Definition modify (f : state -> state) : M unit := fun st => (f st, Ok tt).

Notation "x <- m ;; k" := (bind m (fun x => k))
  (at level 61, m at next level, right associativity) : py_scope.
Notation "m ;;; k" := (bind m (fun _ => k))
  (at level 61, right associativity) : py_scope.

(** The response of a successful rent or return:
    [{"message": ..., "rental_id": ..., "book": ...}]. *)
Record receipt : Type := {
  message : string;
  rental_id : string;
  book : Book
}.

Section Handlers.
Local Open Scope py_scope.

(** A local variable holding a book (or a rental) refers to the very
    dictionary stored in the table, so an assignment through the variable
    is an update of the table entry under its key.  The tables never hold
    one dictionary under two keys: [json.load] builds a fresh dictionary
    per entry and [rent_book] a fresh one per rental. *)

(** [books[k][field] = v] *)
Definition set_book_field (k : key) (field : string) (v : value) : M unit :=
  modify (fun st =>
    match Dict.get k (books st) with
    | Some b =>
        {| books := Dict.set k (Dict.set field v b) (books st);
           rentals := rentals st |}
    | None => st
    end).

(** [rentals[rid][field] = v] *)
Definition set_rental_field (rid : string) (field : string) (v : value)
  : M unit :=
  modify (fun st =>
    match Dict.get rid (rentals st) with
    | Some r =>
        {| books := books st;
           rentals := Dict.set rid (Dict.set field v r) (rentals st) |}
    | None => st
    end).

(** [rentals[rid] = r] *)
Definition set_rental (rid : string) (r : Rental) : M unit :=
  modify (fun st =>
    {| books := books st; rentals := Dict.set rid r (rentals st) |}).

(** Subscripting the outcome of [books.get(...)]: [None[...]] is a
    [TypeError]. *)
Definition getitem_opt (b : option Book) (field : string) : result value :=
  match b with
  | Some d => getitem d field
  | None => Raise TypeError
  end.

(** Truth value of the outcome of [books.get(...)]: [None] and the empty
    dictionary are false. *)
Definition truthy (b : option Book) : bool :=
  match b with
  | Some (_ :: _) => true
  | _ => false
  end.

(** [GET /v1/books] *)
Definition list_books : M (list Book) :=
  gets (fun st => Dict.values (books st)).

(** [GET /v1/books/{book_id}] *)
Definition display_details (book_id : string) : M Book :=
  found <- gets (fun st => Dict.get (KStr book_id) (books st)) ;;
  match found with
  | Some b => if truthy found then ret b
              else raise_http 404 "Book was not found"
  | None => raise_http 404 "Book was not found"
  end.

(** The generator inside [any(...)] of [rent_book]; [and] evaluates its
    right operand only when the left one is true. *)
Definition holds_book (user_id book_id : string) (r : Rental) : result bool :=
  u <~ getitem r "user_id" ;;
  if py_eq_str u user_id then
    b <~ getitem r "book_id" ;;
    if py_eq_str b book_id then
      ret_at <~ getitem r "returned_at" ;;
      Ok (is_none ret_at)
    else Ok false
  else Ok false.

(** [POST /v1/books/{book_id}/rent].  [uuid] stands for the outcome of
    [str(uuid.uuid4())] and [now] for [datetime.now().isoformat()]. *)
Definition rent_book (book_id user_id : string) (uuid now : string)
  : M receipt :=
  known <- gets (fun st => Dict.mem (KStr book_id) (books st)) ;;
  if negb known then raise_http 404 "Book was not found" else
  found <- gets (fun st => Dict.get (KStr book_id) (books st)) ;;
  copies <- lift (getitem_opt found "available_copies") ;;
  none_left <- lift (py_le copies 0) ;;
  if none_left then
    raise_http 400 "There are no copies of this book available for rent"
  else
  ledger <- gets rentals ;;
  user_has_book <-
    lift (py_any (holds_book user_id book_id) (Dict.values ledger)) ;;
  if user_has_book then raise_http 400 "Book already rented by this user"
  else
  set_rental uuid [("user_id", VStr user_id);
                   ("book_id", VStr book_id);
                   ("rented_at", VStr now);
                   ("returned_at", VNone)] ;;;
  current <- gets (fun st => Dict.get (KStr book_id) (books st)) ;;
  copies <- lift (getitem_opt current "available_copies") ;;
  fewer <- lift (py_sub copies 1) ;;
  set_book_field (KStr book_id) "available_copies" fewer ;;;
  updated <- gets (fun st => Dict.get (KStr book_id) (books st)) ;;
  match updated with
  | Some b => ret {| message := "Book rented successfully";
                     rental_id := uuid;
                     book := b |}
  | None => lift (Raise TypeError)
  end.

(** The condition of the first comprehension of [list_user_books]. *)
Definition open_rental_of (user_id : string) (r : Rental) : result bool :=
  u <~ getitem r "user_id" ;;
  if py_eq_str u user_id then
    ret_at <~ getitem r "returned_at" ;;
    Ok (is_none ret_at)
  else Ok false.

(** The loop of [list_user_books]; [user_books] is the list built so far. *)
Fixpoint collect_books (catalog : Dict.t key Book) (user_rentals : list Rental)
    (user_books : list Book) : result (list Book) :=
  match user_rentals with
  | [] => Ok user_books
  | r :: rest =>
      book_id <~ getitem r "book_id" ;;
      k <~ hash book_id ;;
      match Dict.get k catalog with
      | Some b =>
          rid <~ (if Dict.mem "rental_id" r then getitem r "rental_id"
                  else Ok VNone) ;;
          let book_info := Dict.set "rental_id" rid b in
          rented_at <~ getitem r "rented_at" ;;
          let book_info := Dict.set "rented_at" rented_at book_info in
          collect_books catalog rest (user_books ++ [book_info])
      | None => collect_books catalog rest user_books
      end
  end.

(** [GET /v1/users/{user_id}/books] *)
Definition list_user_books (user_id : string) : M (list Book) :=
  ledger <- gets rentals ;;
  user_rentals <-
    lift (py_filter (open_rental_of user_id) (Dict.values ledger)) ;;
  catalog <- gets books ;;
  lift (collect_books catalog user_rentals []).

(** [POST /v1/rentals/{rental_id}/return] *)
Definition return_book (rental_id user_id : string) (now : string)
  : M receipt :=
  found <- gets (fun st => Dict.get rental_id (rentals st)) ;;
  match found with
  | None => raise_http 404 "Rental not found"
  | Some r =>
      owner <- lift (getitem r "user_id") ;;
      if negb (py_eq_str owner user_id) then
        raise_http 403 "Unauthorized: This rental belongs to another user"
      else
      ret_at <- lift (getitem r "returned_at") ;;
      if negb (is_none ret_at) then raise_http 400 "Book already returned"
      else
      book_id <- lift (getitem r "book_id") ;;
      k <- lift (hash book_id) ;;
      b <- gets (fun st => Dict.get k (books st)) ;;
      if negb (truthy b) then raise_http 404 "Book not found" else
      set_rental_field rental_id "returned_at" (VStr now) ;;;
      current <- gets (fun st => Dict.get k (books st)) ;;
      copies <- lift (getitem_opt current "available_copies") ;;
      more <- lift (py_add copies 1) ;;
      set_book_field k "available_copies" more ;;;
      updated <- gets (fun st => Dict.get k (books st)) ;;
      match updated with
      | Some b' => ret {| message := "Book returned successfully";
                          rental_id := rental_id;
                          book := b' |}
      | None => lift (Raise TypeError)
      end
  end.

End Handlers.

(** The requests a client can send.  A request that makes the handler
    draw a fresh identifier or read the clock carries the value drawn. *)
Inductive request : Type :=
| ListBooks
| DisplayDetails (book_id : string)
| RentBook (book_id user_id : string) (uuid now : string)
| ListUserBooks (user_id : string)
| ReturnBook (rental_id user_id : string) (now : string).

(** The tables after a request has been handled, whatever its outcome. *)
Definition handle (rq : request) (st : state) : state :=
  match rq with
  | ListBooks => fst (list_books st)
  | DisplayDetails book_id => fst (display_details book_id st)
  | RentBook book_id user_id uuid now =>
      fst (rent_book book_id user_id uuid now st)
  | ListUserBooks user_id => fst (list_user_books user_id st)
  | ReturnBook rental_id user_id now =>
      fst (return_book rental_id user_id now st)
  end.

(** Requests are handled one after the other, each to completion. *)
Definition serve (rqs : list request) (st : state) : state :=
  fold_left (fun s rq => handle rq s) rqs st.

(* ===================================================================== *)
(** ** Views of the data used in the statements *)
(* ===================================================================== *)

(** The available-copy count of a book, when the field is there and is an
    integer. *)
Definition available (b : Book) : option Z :=
  match Dict.get "available_copies" b with
  | Some v => as_int v
  | None => None
  end.

(** The integer stored under [field], for the total-copy count. *)
Definition int_field (field : string) (b : Book) : option Z :=
  match Dict.get field b with
  | Some v => as_int v
  | None => None
  end.

(** A rental is outstanding when its return timestamp is [None]. *)
Definition outstanding (r : Rental) : bool :=
  match Dict.get "returned_at" r with
  | Some v => is_none v
  | None => false
  end.

Definition rental_user (user_id : string) (r : Rental) : bool :=
  match Dict.get "user_id" r with
  | Some v => py_eq_str v user_id
  | None => false
  end.

Definition rental_book (book_id : string) (r : Rental) : bool :=
  match Dict.get "book_id" r with
  | Some v => py_eq_str v book_id
  | None => false
  end.

(** An outstanding rental of this book by this user. *)
Definition outstanding_for (user_id book_id : string) (r : Rental) : bool :=
  rental_user user_id r && rental_book book_id r && outstanding r.

Definition has_outstanding (user_id book_id : string)
    (ledger : Dict.t string Rental) : bool :=
  existsb (outstanding_for user_id book_id) (Dict.values ledger).

(** A rental record of the data model: user and book identifiers are
    strings, and both timestamps fields are present. *)
Definition typed_rental (r : Rental) : bool :=
  match Dict.get "user_id" r, Dict.get "book_id" r,
        Dict.get "rented_at" r, Dict.get "returned_at" r with
  | Some (VStr _), Some (VStr _), Some _, Some _ => true
  | _, _, _, _ => false
  end.

Definition typed_ledger (ledger : Dict.t string Rental) : bool :=
  forallb typed_rental (Dict.values ledger).

(** The rental record that [rent_book] stores. *)
Definition new_rental (user_id book_id now : string) : Rental :=
  [("user_id", VStr user_id);
   ("book_id", VStr book_id);
   ("rented_at", VStr now);
   ("returned_at", VNone)].

(** The available-copy count of a book as a number, integer or float. *)
Definition quantity (b : Book) : option number :=
  match Dict.get "available_copies" b with
  | Some v => as_number v
  | None => None
  end.

(** The tables after a successful rent that leaves [copies] as the
    book's count. *)
Definition rented_to (st : state) (book_id user_id uuid now : string)
    (b : Book) (copies : value) : state :=
  {| books := Dict.set (KStr book_id)
                (Dict.set "available_copies" copies b) (books st);
     rentals := Dict.set uuid (new_rental user_id book_id now) (rentals st) |}.

(** The tables after a successful rent of a book with the integer count
    [a]. *)
Definition rented (st : state) (book_id user_id uuid now : string)
    (b : Book) (a : Z) : state :=
  rented_to st book_id user_id uuid now b (VInt (a - 1)).

(** The tables after a successful return that leaves [copies] as the
    book's count. *)
Definition returned_to (st : state) (rental_id now : string) (r : Rental)
    (k : key) (b : Book) (copies : value) : state :=
  {| books := Dict.set k
                (Dict.set "available_copies" copies b) (books st);
     rentals := Dict.set rental_id
                  (Dict.set "returned_at" (VStr now) r) (rentals st) |}.

(** The tables after a successful return of a book with the integer
    count [a]. *)
Definition returned (st : state) (rental_id now : string) (r : Rental)
    (k : key) (b : Book) (a : Z) : state :=
  returned_to st rental_id now r k b (VInt (a + 1)).

(** The tables when [return_book] has stamped the rental and the
    increment then raises. *)
Definition stamped (st : state) (rental_id now : string) (r : Rental)
  : state :=
  {| books := books st;
     rentals := Dict.set rental_id
                  (Dict.set "returned_at" (VStr now) r) (rentals st) |}.

(** The scenario of the tests: one book, two copies. *)
Definition book_123 : Book :=
  [("isbn", VStr "123");
   ("title", VStr "A Book");
   ("author", VStr "An Author");
   ("total_copies", VInt 2);
   ("available_copies", VInt 2)].

Definition library_123 : state :=
  {| books := [(KStr "123", book_123)]; rentals := [] |}.

(** A catalog whose only copy of book 7 is already handed out to ann. *)
Definition lent_out : state :=
  {| books := [(KStr "7", [("isbn", VStr "7");
                           ("total_copies", VInt 1);
                           ("available_copies", VInt 0)])];
     rentals := [("r-1", new_rental "ann" "7" "2024-05-01T10:00:00")] |}.

(** A ledger that counts more books out than the catalog owns: the single
    copy of book 7 is on the shelf, yet a rental of it is outstanding. *)
Definition corrupted : state :=
  {| books := [(KStr "7", [("isbn", VStr "7");
                           ("total_copies", VInt 1);
                           ("available_copies", VInt 1)])];
     rentals := [("r-1", new_rental "ann" "7" "2024-05-01T10:00:00")] |}.

(** The key of the book a rental refers to. *)
Definition refers_to (k : key) (r : Rental) : bool :=
  match Dict.get "book_id" r with
  | Some v => match hash v with
              | Ok k' => key_eqb k' k
              | _ => false
              end
  | None => false
  end.

(** How many values of a dictionary satisfy [p]. *)
Definition count {K V : Type} (p : V -> bool) (d : Dict.t K V) : nat :=
  List.length (filter p (Dict.values d)).

Definition b2n (b : bool) : nat := if b then 1%nat else 0%nat.

(** How many outstanding rentals of book [k] the ledger holds. *)
Definition lent (k : key) (ledger : Dict.t string Rental) : nat :=
  count (fun r => outstanding r && refers_to k r) ledger.

(** [0 <= available_copies <= total], the total-copy count being the
    integer stored under [total]. *)
Definition copies_ok (total : string) (b : Book) : bool :=
  match available b, int_field total b with
  | Some a, Some t => (0 <=? a) && (a <=? t)
  | _, _ => false
  end.

(** What the handlers maintain: copies on the shelf plus copies out on
    outstanding rentals never exceed the total. *)
Definition accounted (total : string) (st : state) : Prop :=
  forall k b,
    Dict.get k (books st) = Some b ->
    exists a t,
      available b = Some a /\ int_field total b = Some t /\
      0 <= a /\ a + Z.of_nat (lent k (rentals st)) <= t.

(** The book a rental's book identifier resolves to, if any. *)
Definition resolve (catalog : Dict.t key Book) (r : Rental) : option Book :=
  match Dict.get "book_id" r with
  | Some v => match hash v with
              | Ok k => Dict.get k catalog
              | _ => None
              end
  | None => None
  end.

Definition field_or_none (field : string) (r : Rental) : value :=
  match Dict.get field r with
  | Some v => v
  | None => VNone
  end.

(** A copy of the book, annotated with the rental's own identifier when
    the rental has one ([None] otherwise) and with its rented-at
    timestamp. *)
Definition annotate (r : Rental) (b : Book) : Book :=
  Dict.set "rented_at" (field_or_none "rented_at" r)
    (Dict.set "rental_id" (field_or_none "rental_id" r) b).

(** The entry a rental contributes: none when its book is unknown. *)
Definition listing (catalog : Dict.t key Book) (r : Rental) : list Book :=
  match resolve catalog r with
  | Some b => [annotate r b]
  | None => []
  end.

Definition resolves (catalog : Dict.t key Book) (r : Rental) : bool :=
  match resolve catalog r with Some _ => true | None => false end.

Definition open_for (user_id : string) (r : Rental) : bool :=
  rental_user user_id r && outstanding r.

(** The shape of a rental that [rent_book] made: typed, and without a
    ["rental_id"] field. *)
Definition rent_made (r : Rental) : bool :=
  typed_rental r && negb (Dict.mem "rental_id" r).

(** The entries of the document that the comprehension visits. *)
Definition source_entries (src : source) : list value :=
  match src with
  | Unreadable => []
  | Document data =>
      match rbind (get_books data) py_iter with
      | Ok entries => entries
      | _ => []
      end
  end.

(** A document with two books; the second one states its own
    available-copy count. *)
Definition books_json : source :=
  Document (VDict [("books", VList [
    VDict [("isbn", VStr "123"); ("title", VStr "A Book");
           ("author", VStr "An Author"); ("totalCopies", VInt 2)];
    VDict [("isbn", VStr "456"); ("title", VStr "Another Book");
           ("author", VStr "An Author"); ("totalCopies", VInt 5);
           ("available_copies", VInt 3)]])]).

(* ===================================================================== *)
(** ** Transitions and responses *)
(* ===================================================================== *)

(** The status code of the outcome of the handler that a request
    calls: 200 when the handler returns, the code of the [HTTPException]
    it raises, 500 for any other exception.  This is not yet the status
    of the response: the framework validates the parameters before the
    call and serialises the value after it, and either can fail. *)
Definition handler_status (rq : request) (st : state) : Z :=
  match rq with
  | ListBooks => status (snd (list_books st))
  | DisplayDetails book_id => status (snd (display_details book_id st))
  | RentBook book_id user_id uuid now =>
      status (snd (rent_book book_id user_id uuid now st))
  | ListUserBooks user_id => status (snd (list_user_books user_id st))
  | ReturnBook rental_id user_id now =>
      status (snd (return_book rental_id user_id now st))
  end.

(** The status codes that the handler of a request mentions: 200 for its
    [return], and the codes of its [raise HTTPException(...)]. *)
Definition mentioned (rq : request) : list Z :=
  match rq with
  | ListBooks => [200]
  | DisplayDetails _ => [200; 404]
  | RentBook _ _ _ _ => [200; 404; 400]
  | ListUserBooks _ => [200]
  | ReturnBook _ _ _ => [200; 404; 403; 400]
  end.

(** A book whose available-copy count is an integer. *)
Definition typed_book (b : Book) : bool :=
  match available b with Some _ => true | None => false end.

Definition typed_catalog (catalog : Dict.t key Book) : bool :=
  forallb typed_book (Dict.values catalog).

(** The request is a rent for which the identifier [rid] is drawn. *)
Definition draws (rid : string) (rq : request) : bool :=
  match rq with
  | RentBook _ _ uuid _ => String.eqb uuid rid
  | _ => false
  end.

Definition never_draws (rid : string) (rqs : list request) : bool :=
  forallb (fun rq => negb (draws rid rq)) rqs.



(** The ways in which a request can leave the tables: untouched, after a
    successful rent, after a successful return, or with the rental stamped
    and the count untouched when the increment raised. *)
Inductive effect : request -> state -> state -> Prop :=
| effect_none rq st : effect rq st st
| effect_rent book_id user_id uuid now st b n :
    Dict.get (KStr book_id) (books st) = Some b ->
    quantity b = Some n ->
    num_le n 0 = false ->
    py_any (holds_book user_id book_id) (Dict.values (rentals st))
    = Ok false ->
    effect (RentBook book_id user_id uuid now) st
           (rented_to st book_id user_id uuid now b
              (num_value (num_sub n 1)))
| effect_return rental_id user_id now st r book_id k b n :
    Dict.get rental_id (rentals st) = Some r ->
    Dict.get "user_id" r = Some (VStr user_id) ->
    Dict.get "returned_at" r = Some VNone ->
    Dict.get "book_id" r = Some book_id ->
    hash book_id = Ok k ->
    Dict.get k (books st) = Some b ->
    quantity b = Some n ->
    effect (ReturnBook rental_id user_id now) st
           (returned_to st rental_id now r k b (num_value (num_add n 1)))
| effect_stamp rental_id user_id now st r book_id k b :
    Dict.get rental_id (rentals st) = Some r ->
    Dict.get "user_id" r = Some (VStr user_id) ->
    Dict.get "returned_at" r = Some VNone ->
    Dict.get "book_id" r = Some book_id ->
    hash book_id = Ok k ->
    Dict.get k (books st) = Some b ->
    quantity b = None ->
    effect (ReturnBook rental_id user_id now) st
           (stamped st rental_id now r).

(** [book["isbn"]] hashed: the key under which [load] files an entry. *)
Definition entry_key (entry : value) : result key :=
  rbind (subscript entry "isbn") hash.

(** The book that [load] files for a document entry: the entry itself,
    with ["available_copies"] taken from ["totalCopies"] when it has
    none. *)
Definition normalised (entry : Book) : Book :=
  if Dict.mem "available_copies" entry then entry
  else Dict.set "available_copies" (field_or_none "totalCopies" entry) entry.

(** An entry from which [load] can tell the available-copy count. *)
Definition countable (entry : Book) : bool :=
  Dict.mem "available_copies" entry || Dict.mem "totalCopies" entry.

(** The entry the listing shows for a rental made by [rent_book]. *)
Definition listed (b : Book) (now : string) : Book :=
  Dict.set "rented_at" (VStr now) (Dict.set "rental_id" VNone b).

(* ===================================================================== *)
(** ** Counts that are not integers *)
(* ===================================================================== *)

(** [m <= n] on numbers; a float and an integer are compared by their
    exact values. *)
Definition num_leb (m n : number) : bool :=
  match m, n with
  | NInt x, NInt y => x <=? y
  | NFloat x, NFloat y => SFleb x y
  | NFloat x, NInt z =>
      match float_compare_Z x z with
      | Some Lt | Some Eq => true
      | Some Gt | None => false
      end
  | NInt z, NFloat x =>
      match float_compare_Z x z with
      | Some Gt | Some Eq => true
      | Some Lt | None => false
      end
  end.

(** [n > lit] for an integer literal [lit]. *)
Definition num_gt (n : number) (lit : Z) : bool :=
  match n with
  | NInt z => lit <? z
  | NFloat x =>
      match float_compare_Z x lit with
      | Some Gt => true
      | Some Lt | Some Eq | None => false
      end
  end.

Definition is_nan (n : number) : bool :=
  match n with
  | NFloat S754_nan => true
  | _ => false
  end.

(** [0 <= available_copies <= total] as Python evaluates it on numbers,
    integers or floats. *)
Definition within_total (total : string) (b : Book) : bool :=
  match quantity b, Dict.get total b with
  | Some a, Some v =>
      match as_number v with
      | Some t => num_leb (NInt 0) a && num_leb a t
      | None => false
      end
  | _, _ => false
  end.

(** The floats 0.5 and -0.5. *)
Definition half : spec_float := S754_finite false 4503599627370496 (-53).
Definition minus_half : spec_float :=
  S754_finite true 4503599627370496 (-53).

(** A catalog whose book has half a copy available out of one, as
    [{"isbn": "5", "total_copies": 1, "available_copies": 0.5}] loads. *)
Definition half_copy : state :=
  {| books := [(KStr "5", [("isbn", VStr "5");
                           ("total_copies", VInt 1);
                           ("available_copies", VFloat half)])];
     rentals := [] |}.

(** A document whose first book gives its total in words, and whose
    second book gives [NaN], which [json.load] accepts. *)
Definition books_json_words : source :=
  Document (VDict [("books", VList [
    VDict [("isbn", VStr "9"); ("title", VStr "A Book");
           ("author", VStr "An Author"); ("totalCopies", VStr "two")];
    VDict [("isbn", VStr "10"); ("title", VStr "Another Book");
           ("author", VStr "An Author");
           ("totalCopies", VFloat S754_nan)]])]).

(** The float 2^54, from which subtracting 1 gives 2^54 again. *)
Definition two_54 : spec_float := S754_finite false 4503599627370496 2.

(* ===================================================================== *)
(** ** Dictionary lemmas *)
(* ===================================================================== *)

#[export] Instance string_HashableLaws : HashableLaws string.
Proof. exact String.eqb_spec. Qed.

Lemma float_same_spec (x y : spec_float) : reflect (x = y) (float_same x y).
Proof.
  destruct x as [s|s| |s m e], y as [s'|s'| |s' m' e']; simpl;
    try (constructor; congruence).
  - destruct (Bool.eqb_spec s s'); constructor; congruence.
  - destruct (Bool.eqb_spec s s'); constructor; congruence.
  - destruct (Bool.eqb_spec s s'); simpl; [|constructor; congruence].
    destruct (Pos.eqb_spec m m'); simpl; [|constructor; congruence].
    destruct (Z.eqb_spec e e'); constructor; congruence.
Qed.

#[export] Instance key_HashableLaws : HashableLaws key.
Proof.
  intros a b. unfold key_eqb, key_Hashable.
  destruct a as [|x|x|x], b as [|y|y|y]; simpl;
    try (constructor; congruence).
  - destruct (Z.eqb_spec x y); constructor; congruence.
  - destruct (String.eqb_spec x y); constructor; congruence.
  - destruct (float_same_spec x y); constructor; congruence.
Qed.

Section DictFacts.
Context {K V : Type} `{HashableLaws K}.
Implicit Types (k : K) (v : V) (d : Dict.t K V).

Lemma key_eqb_refl k : key_eqb k k = true.
Proof. destruct (key_eqb_spec k k); congruence. Qed.

Lemma key_eqb_neq k k' : k <> k' -> key_eqb k k' = false.
Proof. intros Hne. destruct (key_eqb_spec k k'); congruence. Qed.

Lemma get_set_same k v d : Dict.get k (Dict.set k v d) = Some v.
Proof.
  induction d as [|[k' v'] d IH]; simpl.
  - now rewrite key_eqb_refl.
  - destruct (key_eqb k k') eqn:E; simpl; rewrite E; auto.
Qed.

Lemma get_set_other k k' v d :
  k <> k' -> Dict.get k' (Dict.set k v d) = Dict.get k' d.
Proof.
  intros Hne. induction d as [|[k0 v0] d IH]; simpl.
  - rewrite key_eqb_neq; congruence.
  - destruct (key_eqb_spec k k0) as [->|Hk]; simpl.
    + rewrite (key_eqb_neq (k:=k') (k':=k0)); congruence.
    + now rewrite IH.
Qed.

Lemma set_absent k v d :
  Dict.get k d = None -> Dict.set k v d = d ++ [(k, v)].
Proof.
  induction d as [|[k' v'] d IH]; simpl; auto.
  destruct (key_eqb k k'); [discriminate|].
  intros Hg. now rewrite IH.
Qed.

Lemma keys_set_present k v v0 d :
  Dict.get k d = Some v0 -> Dict.keys (Dict.set k v d) = Dict.keys d.
Proof.
  unfold Dict.keys. induction d as [|[k' v'] d IH]; simpl; [discriminate|].
  destruct (key_eqb k k'); simpl; auto.
  intros Hg. now rewrite IH.
Qed.

Lemma get_In k v d : Dict.get k d = Some v -> In v (Dict.values d).
Proof.
  unfold Dict.values. induction d as [|[k' v'] d IH]; simpl; [discriminate|].
  destruct (key_eqb k k').
  - intros [= ->]. now left.
  - intros Hg. right. auto.
Qed.

Lemma In_values_set k v d x :
  In x (Dict.values (Dict.set k v d)) -> x = v \/ In x (Dict.values d).
Proof.
  unfold Dict.values. induction d as [|[k' v'] d IH]; simpl.
  - intros [<-|[]]. now left.
  - destruct (key_eqb k k'); simpl.
    + intros [<-|Hin]; auto.
    + intros [<-|Hin]; auto. destruct (IH Hin); auto.
Qed.

Lemma forallb_values_set (p : V -> bool) k v d :
  forallb p (Dict.values d) = true -> p v = true ->
  forallb p (Dict.values (Dict.set k v d)) = true.
Proof.
  intros Hd Hv. apply forallb_forall. intros x Hin.
  destruct (In_values_set _ _ _ _ Hin) as [->|Hin']; auto.
  rewrite forallb_forall in Hd. auto.
Qed.

End DictFacts.

(* ===================================================================== *)
(** ** What the two mutating handlers compute *)
(* ===================================================================== *)

Ltac unfold_handler :=
  cbv [rent_book return_book list_user_books display_details list_books
       bind gets lift raise_http ret modify set_rental set_rental_field
       set_book_field getitem_opt getitem rbind py_le py_sub py_add].

(** [rent_book], one case per exit of the handler. *)
Lemma rent_book_cases book_id user_id uuid now st :
  rent_book book_id user_id uuid now st =
  match Dict.get (KStr book_id) (books st) with
  | None => (st, HTTPException 404 "Book was not found")
  | Some b =>
      match Dict.get "available_copies" b with
      | None => (st, Raise KeyError)
      | Some v =>
          match as_number v with
          | None => (st, Raise TypeError)
          | Some n =>
              if num_le n 0 then
                (st, HTTPException 400
                       "There are no copies of this book available for rent")
              else
                match py_any (holds_book user_id book_id)
                        (Dict.values (rentals st)) with
                | Ok true =>
                    (st, HTTPException 400 "Book already rented by this user")
                | Ok false =>
                    (rented_to st book_id user_id uuid now b
                       (num_value (num_sub n 1)),
                     Ok {| message := "Book rented successfully";
                           rental_id := uuid;
                           book := Dict.set "available_copies"
                                     (num_value (num_sub n 1)) b |})
                | HTTPException c d => (st, HTTPException c d)
                | Raise e => (st, Raise e)
                end
          end
      end
  end.
Proof.
  unfold_handler. unfold Dict.mem.
  destruct (Dict.get (KStr book_id) (books st)) as [b|] eqn:Hb;
    cbn [negb]; cbv beta iota; [|reflexivity].
  rewrite Hb.
  destruct (Dict.get "available_copies" b) as [v|] eqn:Hv; [|reflexivity].
  destruct (as_number v) as [n|] eqn:Ha; [|reflexivity].
  destruct (num_le n 0); [reflexivity|].
  destruct (py_any (holds_book user_id book_id) (Dict.values (rentals st)))
    as [[|]| |]; try reflexivity.
  cbn [books rentals]. rewrite Hb, Hv, Ha. cbn [books rentals].
  now rewrite get_set_same.
Qed.

Lemma as_number_int v a : as_int v = Some a -> as_number v = Some (NInt a).
Proof.
  destruct v; cbn; intros Heq; try discriminate;
    injection Heq as <-; reflexivity.
Qed.

Lemma as_number_num_value n : as_number (num_value n) = Some n.
Proof. destruct n; reflexivity. Qed.

Lemma as_number_quantity b a :
  available b = Some a -> quantity b = Some (NInt a).
Proof.
  unfold available, quantity.
  destruct (Dict.get "available_copies" b); [|discriminate].
  apply as_number_int.
Qed.


Lemma num_le_gt n lit :
  is_nan n = false -> num_le n lit = negb (num_gt n lit).
Proof.
  destruct n as [z|x]; cbn [num_le num_gt is_nan].
  - intros _. apply Z.leb_antisym.
  - destruct x as [s|s| |s m e]; try discriminate; intros _;
      cbn [float_compare_Z]; try (destruct s; reflexivity).
    + destruct (0 ?= lit); reflexivity.
    + destruct (0 <=? e);
        match goal with |- context [?a ?= ?b] => destruct (a ?= b) end;
        reflexivity.
Qed.

Lemma num_gt_not_nan n lit : num_gt n lit = true -> is_nan n = false.
Proof. destruct n as [z|[s|s| |s m e]]; auto; discriminate. Qed.

Lemma num_gt_not_le n lit : num_gt n lit = true -> num_le n lit = false.
Proof.
  intros Hgt. now rewrite (num_le_gt _ _ (num_gt_not_nan _ _ Hgt)), Hgt.
Qed.

Lemma quantity_set_copies (b : Book) (n : number) :
  quantity (Dict.set "available_copies" (num_value n) b) = Some n.
Proof. unfold quantity. rewrite get_set_same. apply as_number_num_value. Qed.

(** [return_book], one case per exit of the handler. *)
Lemma return_book_cases rental_id user_id now st :
  return_book rental_id user_id now st =
  match Dict.get rental_id (rentals st) with
  | None => (st, HTTPException 404 "Rental not found")
  | Some r =>
      match Dict.get "user_id" r with
      | None => (st, Raise KeyError)
      | Some owner =>
          if negb (py_eq_str owner user_id) then
            (st, HTTPException 403
                   "Unauthorized: This rental belongs to another user")
          else
            match Dict.get "returned_at" r with
            | None => (st, Raise KeyError)
            | Some ret_at =>
                if negb (is_none ret_at) then
                  (st, HTTPException 400 "Book already returned")
                else
                  match Dict.get "book_id" r with
                  | None => (st, Raise KeyError)
                  | Some book_id =>
                      match hash book_id with
                      | Ok k =>
                          match Dict.get k (books st) with
                          | Some ((_ :: _) as b) =>
                              match Dict.get "available_copies" b with
                              | None =>
                                  (stamped st rental_id now r, Raise KeyError)
                              | Some v =>
                                  match as_number v with
                                  | None => (stamped st rental_id now r,
                                             Raise TypeError)
                                  | Some n =>
                                      (returned_to st rental_id now r k b
                                         (num_value (num_add n 1)),
                                       Ok {| message :=
                                               "Book returned successfully";
                                             rental_id := rental_id;
                                             book :=
                                               Dict.set "available_copies"
                                                 (num_value (num_add n 1))
                                                 b |})
                                  end
                              end
                          | _ => (st, HTTPException 404 "Book not found")
                          end
                      | HTTPException c d => (st, HTTPException c d)
                      | Raise e => (st, Raise e)
                      end
                  end
            end
      end
  end.
Proof.
  unfold_handler.
  destruct (Dict.get rental_id (rentals st)) as [r|] eqn:Hr; [|reflexivity].
  destruct (Dict.get "user_id" r) as [owner|]; [|reflexivity].
  destruct (negb (py_eq_str owner user_id)); [reflexivity|].
  destruct (Dict.get "returned_at" r) as [ret_at|]; [|reflexivity].
  destruct (negb (is_none ret_at)); [reflexivity|].
  destruct (Dict.get "book_id" r) as [book_id|]; [|reflexivity].
  destruct (hash book_id) as [k| |]; try reflexivity.
  destruct (Dict.get k (books st)) as [[|f b]|] eqn:Hb; try reflexivity.
  cbn [truthy negb]. cbv beta iota. rewrite Hr. cbn [books rentals].
  rewrite Hb.
  destruct (Dict.get "available_copies" (f :: b)) as [v|] eqn:Hv;
    [|reflexivity].
  destruct (as_number v) as [n|]; [|reflexivity].
  cbn [books rentals]. now rewrite get_set_same.
Qed.

(** On a typed rental the generator of [rent_book] raises nothing and
    tells whether the rental is an outstanding one of this user and book. *)
Lemma holds_book_typed user_id book_id r :
  typed_rental r = true ->
  holds_book user_id book_id r = Ok (outstanding_for user_id book_id r).
Proof.
  unfold typed_rental, holds_book, outstanding_for, rental_user, rental_book,
    outstanding, getitem, rbind.
  destruct (Dict.get "user_id" r) as [[| | |u| | |]|]; try discriminate.
  destruct (Dict.get "book_id" r) as [[| | |b| | |]|]; try discriminate.
  destruct (Dict.get "rented_at" r); try discriminate.
  destruct (Dict.get "returned_at" r) as [ret_at|]; try discriminate.
  intros _.
  destruct (py_eq_str (VStr u) user_id), (py_eq_str (VStr b) book_id);
    reflexivity.
Qed.

Lemma py_any_typed user_id book_id ledger :
  typed_ledger ledger = true ->
  py_any (holds_book user_id book_id) (Dict.values ledger) =
  Ok (has_outstanding user_id book_id ledger).
Proof.
  unfold typed_ledger, has_outstanding.
  induction (Dict.values ledger) as [|r rs IH]; simpl; auto.
  intros Ht. apply andb_prop in Ht as [Hr Hrs].
  rewrite (holds_book_typed _ _ _ Hr). simpl.
  destruct (outstanding_for user_id book_id r); simpl; auto.
Qed.

Lemma available_set_copies (b : Book) (n : Z) :
  available (Dict.set "available_copies" (VInt n) b) = Some n.
Proof. unfold available. now rewrite get_set_same. Qed.

(* ===================================================================== *)
(** ** Rent Book *)
(* ===================================================================== *)

(** C2, as the code has it.  Over a ledger of typed rentals,
    [rent_book] checks its preconditions in order: an unknown book
    identifier gives 404; else, the available-copy count of the book being
    a number other than [NaN], a count that is not above zero gives 400;
    else an outstanding rental of this very user and book gives 400; else
    the request succeeds. *)
Theorem rent_book_precondition_order book_id user_id uuid now st :
  typed_ledger (rentals st) = true ->
  (Dict.get (KStr book_id) (books st) = None ->
   rent_book book_id user_id uuid now st =
   (st, HTTPException 404 "Book was not found")) /\
  (forall b n,
     Dict.get (KStr book_id) (books st) = Some b ->
     quantity b = Some n ->
     is_nan n = false ->
     (num_gt n 0 = false ->
      rent_book book_id user_id uuid now st =
      (st, HTTPException 400
             "There are no copies of this book available for rent")) /\
     (num_gt n 0 = true ->
      has_outstanding user_id book_id (rentals st) = true ->
      rent_book book_id user_id uuid now st =
      (st, HTTPException 400 "Book already rented by this user")) /\
     (num_gt n 0 = true ->
      has_outstanding user_id book_id (rentals st) = false ->
      is_ok (snd (rent_book book_id user_id uuid now st)) = true)).
Proof.
  intros Ht. rewrite rent_book_cases. split.
  - intros ->. reflexivity.
  - intros b n -> Hq Hnan. unfold quantity in Hq.
    destruct (Dict.get "available_copies" b) as [v|]; [|discriminate].
    rewrite Hq, (py_any_typed _ _ _ Ht), (num_le_gt _ _ Hnan).
    repeat apply conj.
    + intros ->. reflexivity.
    + intros -> ->. reflexivity.
    + intros -> ->. reflexivity.
Qed.

Lemma rent_book_precondition_order_witness :
  typed_ledger (rentals lent_out) = true /\
  rent_book "7" "bea" "r-2" "2024-05-02T09:00:00" lent_out =
  (lent_out,
   HTTPException 400 "There are no copies of this book available for rent").
Proof.
  split; [reflexivity|].
  exact (proj1 (proj2 (rent_book_precondition_order
                         "7" "bea" "r-2" "2024-05-02T09:00:00" lent_out
                         eq_refl) _ (NInt 0) eq_refl eq_refl eq_refl)
               eq_refl).
Defined.

(** C2, as the specification words it, fails: a catalog that [load]
    produced holds books whose count is not an ordinary number.  Renting
    the book whose count is a string is neither refused with 404 or 400
    nor successful: the comparison raises [TypeError].  Renting the book
    whose count is [NaN] is not refused with 400 although the count is
    not above zero: the handler returns and the rental is in the
    ledger. *)
Lemma rent_book_of_loaded_words_raises :
  Dict.mem (KStr "9") (load books_json_words) = true /\
  snd (rent_book "9" "ann" "r-1" "2024-05-01T10:00:00"
         {| books := load books_json_words; rentals := [] |}) =
  Raise TypeError /\
  status (snd (rent_book "9" "ann" "r-1" "2024-05-01T10:00:00"
                 {| books := load books_json_words; rentals := [] |})) = 500 /\
  Dict.mem (KStr "10") (load books_json_words) = true /\
  num_gt (NFloat S754_nan) 0 = false /\
  is_ok (snd (rent_book "10" "ann" "r-1" "2024-05-01T10:00:00"
                {| books := load books_json_words; rentals := [] |})) = true /\
  rentals (fst (rent_book "10" "ann" "r-1" "2024-05-01T10:00:00"
                  {| books := load books_json_words; rentals := [] |})) =
  [("r-1", new_rental "ann" "10" "2024-05-01T10:00:00")].
Proof. repeat apply conj; reflexivity. Qed.

(** C3, as the code has it.  When the three preconditions hold and the
    identifier that [uuid4] gives is not yet a key of the ledger,
    [rent_book] answers with the confirmation message, the new rental
    identifier and the updated book; the book's available-copy count is
    the old one minus 1, which for an integer count is exactly one less,
    and its other fields are as before; every other catalog entry is as
    before; and the ledger is the old one followed by exactly one new
    rental of this user and book, rented at the current time and not
    returned. *)
Theorem rent_book_effect book_id user_id uuid now st b n :
  typed_ledger (rentals st) = true ->
  Dict.get (KStr book_id) (books st) = Some b ->
  quantity b = Some n ->
  num_gt n 0 = true ->
  has_outstanding user_id book_id (rentals st) = false ->
  Dict.get uuid (rentals st) = None ->
  exists st' b',
    rent_book book_id user_id uuid now st =
    (st', Ok {| message := "Book rented successfully";
                rental_id := uuid;
                book := b' |}) /\
    quantity b' = Some (num_sub n 1) /\
    (forall a, n = NInt a -> available b' = Some (a - 1)) /\
    (forall field, field <> "available_copies" ->
                   Dict.get field b' = Dict.get field b) /\
    Dict.get (KStr book_id) (books st') = Some b' /\
    (forall k, k <> KStr book_id ->
               Dict.get k (books st') = Dict.get k (books st)) /\
    Dict.keys (books st') = Dict.keys (books st) /\
    rentals st' =
    rentals st ++ [(uuid, [("user_id", VStr user_id);
                           ("book_id", VStr book_id);
                           ("rented_at", VStr now);
                           ("returned_at", VNone)])].
Proof.
  intros Ht Hb Hq Hpos Hno Hfresh.
  exists (rented_to st book_id user_id uuid now b (num_value (num_sub n 1))),
         (Dict.set "available_copies" (num_value (num_sub n 1)) b).
  rewrite rent_book_cases, Hb. pose proof Hq as Hq'. unfold quantity in Hq'.
  destruct (Dict.get "available_copies" b) as [v|]; [|discriminate].
  rewrite Hq', (py_any_typed _ _ _ Ht), Hno, (num_gt_not_le _ _ Hpos).
  cbn [rented_to books rentals].
  repeat apply conj.
  - reflexivity.
  - apply quantity_set_copies.
  - intros a ->. apply available_set_copies.
  - intros field Hne. apply get_set_other. congruence.
  - apply get_set_same.
  - intros k Hne. apply get_set_other. congruence.
  - eapply keys_set_present; eauto.
  - now apply set_absent.
Qed.

Lemma rent_book_effect_witness :
  exists st' b',
    rent_book "123" "alice" "r-1" "2024-05-01T10:00:00" library_123 =
    (st', Ok {| message := "Book rented successfully";
                rental_id := "r-1";
                book := b' |}) /\
    available b' = Some 1 /\
    rentals st' = [("r-1", new_rental "alice" "123" "2024-05-01T10:00:00")].
Proof.
  destruct (rent_book_effect "123" "alice" "r-1" "2024-05-01T10:00:00"
              library_123 (b:=book_123) (n:=NInt 2)
              eq_refl eq_refl eq_refl eq_refl eq_refl eq_refl)
    as (st' & b' & Hrun & _ & Hav & _ & _ & _ & _ & Hled).
  exists st', b'. split; [exact Hrun|]. split; [exact (Hav 2 eq_refl)|].
  exact Hled.
Defined.

(** On a float the subtraction rounds: from 2^54 copies a rent leaves
    2^54 copies. *)
Example rent_book_of_large_float_count :
  Dict.get (KStr "5")
    (books (fst (rent_book "5" "ann" "r-1" "2024-05-01T10:00:00"
                   {| books := [(KStr "5",
                                 [("isbn", VStr "5");
                                  ("available_copies", VFloat two_54)])];
                      rentals := [] |}))) =
  Some [("isbn", VStr "5"); ("available_copies", VFloat two_54)].
Proof. reflexivity. Qed.

(** C3, as the specification words it, fails: nothing in [rent_book]
    makes the identifier new.  In [corrupted] the three preconditions
    hold for bea and book 7; when the identifier drawn is the key of
    ann's rental, the rent succeeds, ann's rental is overwritten and the
    ledger has as many rentals as before. *)
Lemma rent_book_under_known_identifier_overwrites :
  Dict.mem (KStr "7") (books corrupted) = true /\
  has_outstanding "bea" "7" (rentals corrupted) = false /\
  Dict.get "r-1" (rentals corrupted) =
  Some (new_rental "ann" "7" "2024-05-01T10:00:00") /\
  is_ok (snd (rent_book "7" "bea" "r-1" "2024-05-02T09:00:00" corrupted))
  = true /\
  rentals (fst (rent_book "7" "bea" "r-1" "2024-05-02T09:00:00" corrupted)) =
  [("r-1", new_rental "bea" "7" "2024-05-02T09:00:00")] /\
  rentals (fst (rent_book "7" "bea" "r-1" "2024-05-02T09:00:00" corrupted)) <>
  rentals corrupted ++ [("r-1", new_rental "bea" "7" "2024-05-02T09:00:00")].
Proof. repeat apply conj; try reflexivity. discriminate. Qed.

(* ===================================================================== *)
(** ** Return Book *)
(* ===================================================================== *)

Lemma py_eq_str_true v s : py_eq_str v s = true -> v = VStr s.
Proof.
  destruct v; simpl; try discriminate.
  intros Heq. apply String.eqb_eq in Heq. now subst.
Qed.



(** C1, as the specification words it, fails: after ann has returned her
    rental, a second attempt made under bea's identifier is refused with
    403 (Forbidden), not with 400 (InvalidState). *)
Lemma second_return_by_other_user_is_forbidden :
  is_ok (snd (return_book "r-1" "ann" "2024-05-03T08:00:00" lent_out)) = true /\
  snd (return_book "r-1" "bea" "2024-05-04T08:00:00"
         (fst (return_book "r-1" "ann" "2024-05-03T08:00:00" lent_out))) =
  HTTPException 403 "Unauthorized: This rental belongs to another user" /\
  status (snd (return_book "r-1" "bea" "2024-05-04T08:00:00"
                 (fst (return_book "r-1" "ann" "2024-05-03T08:00:00"
                         lent_out)))) <> 400.
Proof. repeat split. discriminate. Qed.

(* ===================================================================== *)
(** ** Failed requests *)
(* ===================================================================== *)

(** C5.  A rent or a return that is refused with an HTTP error (404, 400
    or 403) leaves the catalog and the ledger exactly as they were; and a
    return under a user identifier other than the rental's is refused
    with 403 and changes nothing. *)
Theorem refused_request_changes_nothing :
  (forall book_id user_id uuid now st c d,
     snd (rent_book book_id user_id uuid now st) = HTTPException c d ->
     fst (rent_book book_id user_id uuid now st) = st) /\
  (forall rental_id user_id now st c d,
     snd (return_book rental_id user_id now st) = HTTPException c d ->
     fst (return_book rental_id user_id now st) = st) /\
  (forall rental_id user_id now st r owner,
     Dict.get rental_id (rentals st) = Some r ->
     Dict.get "user_id" r = Some owner ->
     py_eq_str owner user_id = false ->
     return_book rental_id user_id now st =
     (st, HTTPException 403
            "Unauthorized: This rental belongs to another user")).
Proof.
  repeat split.
  - intros book_id user_id uuid now st c d. rewrite rent_book_cases.
    destruct (Dict.get (KStr book_id) (books st)) as [b|]; auto.
    destruct (Dict.get "available_copies" b) as [v|]; auto.
    destruct (as_number v) as [n|]; auto.
    destruct (num_le n 0); auto.
    destruct (py_any _ _) as [[|]| |]; auto. discriminate.
  - intros rental_id user_id now st c d. rewrite return_book_cases.
    destruct (Dict.get rental_id (rentals st)) as [r|]; auto.
    destruct (Dict.get "user_id" r) as [owner|]; auto.
    destruct (negb (py_eq_str owner user_id)); auto.
    destruct (Dict.get "returned_at" r) as [ret_at|]; auto.
    destruct (negb (is_none ret_at)); auto.
    destruct (Dict.get "book_id" r) as [book_id|]; auto.
    destruct (hash book_id) as [k| |]; auto.
    destruct (Dict.get k (books st)) as [[|f b]|]; auto.
    destruct (Dict.get "available_copies" (f :: b)) as [v|];
      [|discriminate].
    destruct (as_number v) as [n|]; discriminate.
  - intros rental_id user_id now st r owner Hr Hu Hne.
    now rewrite return_book_cases, Hr, Hu, Hne.
Qed.

Lemma refused_request_changes_nothing_witness :
  return_book "r-1" "bea" "2024-05-03T08:00:00" lent_out =
  (lent_out, HTTPException 403
               "Unauthorized: This rental belongs to another user") /\
  fst (rent_book "7" "bea" "r-2" "2024-05-02T09:00:00" lent_out) = lent_out.
Proof.
  split.
  - exact (proj2 (proj2 refused_request_changes_nothing)
             "r-1" "bea" "2024-05-03T08:00:00" lent_out
             (new_rental "ann" "7" "2024-05-01T10:00:00") (VStr "ann")
             eq_refl eq_refl eq_refl).
  - exact (proj1 refused_request_changes_nothing
             "7" "bea" "r-2" "2024-05-02T09:00:00" lent_out 400
             "There are no copies of this book available for rent" eq_refl).
Defined.

(* ===================================================================== *)
(** ** The copy-count invariant *)
(* ===================================================================== *)

Section Counting.
Context {K V : Type} `{HashableLaws K}.
Variable p : V -> bool.

(** Assigning to a key trades the old value's contribution for the new. *)
Lemma count_set k v d :
  (count p (Dict.set k v d)
   + match Dict.get k d with Some old => b2n (p old) | None => 0 end
   = count p d + b2n (p v))%nat.
Proof.
  unfold count, Dict.values.
  induction d as [|[k' v'] d IH]; simpl.
  - destruct (p v); simpl; lia.
  - destruct (key_eqb k k'); simpl.
    + destruct (p v), (p v'); simpl; lia.
    + destruct (p v'); simpl; lia.
Qed.

End Counting.

Section Invariant.
Variable total : string.
Hypothesis total_not_available : total <> "available_copies".

Lemma int_field_total_set (b : Book) (v : value) :
  int_field total (Dict.set "available_copies" v b) = int_field total b.
Proof.
  unfold int_field. rewrite get_set_other; auto.
Qed.

Lemma lent_set k rid r ledger :
  (lent k (Dict.set rid r ledger)
   + match Dict.get rid ledger with
     | Some old => b2n (outstanding old && refers_to k old)
     | None => 0
     end
   = lent k ledger + b2n (outstanding r && refers_to k r))%nat.
Proof. apply (count_set (fun r => outstanding r && refers_to k r)). Qed.

Lemma refers_to_new_rental k user_id book_id now :
  refers_to k (new_rental user_id book_id now) = key_eqb (KStr book_id) k.
Proof. reflexivity. Qed.

Lemma accounted_rented st book_id user_id uuid now b a :
  accounted total st ->
  Dict.get (KStr book_id) (books st) = Some b ->
  Dict.get "available_copies" b = Some a ->
  forall z, as_int a = Some z -> (z <=? 0) = false ->
  accounted total (rented st book_id user_id uuid now b z).
Proof.
  intros Hinv Hb Hget z Hz Hpos k b0.
  cbn [rented books rentals rented_to returned_to].
  apply Z.leb_gt in Hpos.
  pose proof (lent_set k uuid (new_rental user_id book_id now) (rentals st))
    as Hcount.
  rewrite refers_to_new_rental in Hcount.
  destruct (key_eqb_spec (KStr book_id) k) as [<-|Hne].
  - rewrite get_set_same. intros [= <-].
    destruct (Hinv _ _ Hb) as (a0 & t & Ha0 & Ht & Hlo & Hhi).
    unfold available in Ha0. rewrite Hget, Hz in Ha0.
    injection Ha0 as <-.
    exists (z - 1), t. rewrite available_set_copies, int_field_total_set.
    repeat split; auto; try lia.
    cbn [new_rental outstanding Dict.get key_eqb string_Hashable] in Hcount.
    simpl in Hcount.
    destruct (Dict.get uuid (rentals st)); lia.
  - rewrite get_set_other by assumption. intros Hb0.
    destruct (Hinv _ _ Hb0) as (a0 & t & Ha0 & Ht & Hlo & Hhi).
    exists a0, t. repeat split; auto.
    rewrite andb_false_r in Hcount. simpl in Hcount.
    destruct (Dict.get uuid (rentals st)); lia.
Qed.

Lemma accounted_returned st rental_id now r book_id k b v a :
  accounted total st ->
  Dict.get rental_id (rentals st) = Some r ->
  Dict.get "returned_at" r = Some VNone ->
  Dict.get "book_id" r = Some book_id ->
  hash book_id = Ok k ->
  Dict.get k (books st) = Some b ->
  Dict.get "available_copies" b = Some v ->
  as_int v = Some a ->
  accounted total (returned st rental_id now r k b a).
Proof.
  intros Hinv Hr Hret Hbid Hk Hb Hv Ha k0 b0.
  cbn [returned books rentals rented_to returned_to].
  pose proof (lent_set k0 rental_id (Dict.set "returned_at" (VStr now) r)
                (rentals st)) as Hcount.
  rewrite Hr in Hcount.
  assert (Hout' : outstanding (Dict.set "returned_at" (VStr now) r) = false).
  { unfold outstanding. now rewrite get_set_same. }
  assert (Hout : outstanding r = true).
  { unfold outstanding. now rewrite Hret. }
  rewrite Hout, Hout' in Hcount. cbn [andb b2n] in Hcount.
  destruct (key_eqb_spec k k0) as [<-|Hne].
  - rewrite get_set_same. intros [= <-].
    destruct (Hinv _ _ Hb) as (a0 & t & Ha0 & Ht & Hlo & Hhi).
    unfold available in Ha0. rewrite Hv, Ha in Ha0. injection Ha0 as <-.
    exists (a + 1), t. rewrite available_set_copies, int_field_total_set.
    repeat split; auto; try lia.
    assert (Href : refers_to k r = true).
    { unfold refers_to. rewrite Hbid, Hk. apply key_eqb_refl. }
    rewrite Href in Hcount. cbn [b2n] in Hcount. lia.
  - rewrite get_set_other by assumption. intros Hb0.
    destruct (Hinv _ _ Hb0) as (a0 & t & Ha0 & Ht & Hlo & Hhi).
    exists a0, t. repeat split; auto.
    unfold b2n in Hcount. destruct (refers_to k0 r); lia.
Qed.

Lemma accounted_handle rq st :
  accounted total st -> accounted total (handle rq st).
Proof.
  intros Hinv. destruct rq as [|book_id|book_id user_id uuid now|user_id
                               |rental_id user_id now]; cbn [handle].
  - exact Hinv.
  - unfold display_details, bind, gets, raise_http, ret.
    destruct (Dict.get (KStr book_id) (books st)) as [[|f b]|]; exact Hinv.
  - rewrite rent_book_cases.
    destruct (Dict.get (KStr book_id) (books st)) as [b|] eqn:Hb; auto.
    destruct (Hinv _ _ Hb) as (a0 & t & Ha0 & _). unfold available in Ha0.
    destruct (Dict.get "available_copies" b) as [v|] eqn:Hv; [|discriminate].
    rewrite (as_number_int _ Ha0). cbn [num_le num_sub num_value].
    destruct (a0 <=? 0) eqn:Hpos; auto.
    destruct (py_any _ _) as [[|]| |]; auto.
    cbn [fst].
    change (accounted total (rented st book_id user_id uuid now b a0)).
    eapply accounted_rented; eauto.
  - unfold list_user_books, bind, gets, lift.
    destruct (py_filter _ _); auto.
  - rewrite return_book_cases.
    destruct (Dict.get rental_id (rentals st)) as [r|] eqn:Hr; auto.
    destruct (Dict.get "user_id" r) as [owner|]; auto.
    destruct (negb (py_eq_str owner user_id)); auto.
    destruct (Dict.get "returned_at" r) as [ret_at|] eqn:Hret; auto.
    destruct ret_at; cbn [negb is_none]; auto.
    destruct (Dict.get "book_id" r) as [book_id|] eqn:Hbid; auto.
    destruct (hash book_id) as [k| |] eqn:Hk; auto.
    destruct (Dict.get k (books st)) as [[|f b]|] eqn:Hb; auto.
    destruct (Hinv _ _ Hb) as (a0 & t & Ha0 & _).
    unfold available in Ha0.
    destruct (Dict.get "available_copies" (f :: b)) as [v|] eqn:Hv;
      [|discriminate].
    rewrite (as_number_int _ Ha0). cbn [num_add num_value fst].
    change (accounted total (returned st rental_id now r k (f :: b) a0)).
    eapply accounted_returned; eauto.
Qed.

Lemma accounted_serve rqs st :
  accounted total st -> accounted total (serve rqs st).
Proof.
  unfold serve. revert st.
  induction rqs as [|rq rqs IH]; intros st Hinv; simpl; auto.
  apply IH, accounted_handle, Hinv.
Qed.

Lemma accounted_initial st :
  rentals st = [] ->
  forallb (copies_ok total) (Dict.values (books st)) = true ->
  accounted total st.
Proof.
  intros Hempty Hall k b Hb. rewrite Hempty.
  rewrite forallb_forall in Hall. specialize (Hall b (get_In _ _ Hb)).
  unfold copies_ok in Hall.
  destruct (available b) as [a|]; [|discriminate].
  destruct (int_field total b) as [t|]; [|discriminate].
  apply andb_prop in Hall as [Hlo Hhi].
  apply Z.leb_le in Hlo, Hhi.
  exists a, t. simpl. repeat split; auto; lia.
Qed.

Lemma accounted_copies_ok st k b :
  accounted total st ->
  Dict.get k (books st) = Some b -> copies_ok total b = true.
Proof.
  intros Hinv Hb. destruct (Hinv _ _ Hb) as (a & t & Ha & Ht & Hlo & Hhi).
  unfold copies_ok. rewrite Ha, Ht.
  apply andb_true_intro. split; apply Z.leb_le; lia.
Qed.

End Invariant.

(** C6, as the code has it.  Start from an empty ledger and a catalog in
    which every book has integer counts with
    [0 <= available_copies <= total_copies]; then after any sequence of
    requests every book of the catalog still has them so.  The total-copy
    count is read from the field [total], which may be any field other
    than ["available_copies"]. *)
Theorem copies_invariant total init rqs :
  total <> "available_copies" ->
  rentals init = [] ->
  forallb (copies_ok total) (Dict.values (books init)) = true ->
  forall k b,
    Dict.get k (books (serve rqs init)) = Some b ->
    copies_ok total b = true.
Proof.
  intros Hne Hempty Hall k b Hb.
  eapply accounted_copies_ok; eauto.
  apply accounted_serve; auto. now apply accounted_initial.
Qed.

Lemma copies_invariant_witness :
  "total_copies" <> "available_copies" /\
  rentals library_123 = [] /\
  forallb (copies_ok "total_copies") (Dict.values (books library_123)) = true /\
  copies_ok "total_copies"
    [("isbn", VStr "123");
     ("title", VStr "A Book");
     ("author", VStr "An Author");
     ("total_copies", VInt 2);
     ("available_copies", VInt 1)] = true.
Proof.
  assert (Hne : "total_copies" <> "available_copies") by discriminate.
  split; [exact Hne|]. split; [reflexivity|]. split; [reflexivity|].
  exact (copies_invariant
           (total:="total_copies") library_123
           [RentBook "123" "alice" "r-1" "2024-05-01T10:00:00";
            RentBook "123" "bob" "r-2" "2024-05-01T11:00:00";
            ListUserBooks "alice";
            ReturnBook "r-1" "alice" "2024-05-02T10:00:00"]
           Hne eq_refl eq_refl (KStr "123") eq_refl).
Defined.

Lemma copies_ok_within_total total b :
  copies_ok total b = true -> within_total total b = true.
Proof.
  unfold copies_ok, within_total, int_field.
  destruct (available b) as [a|] eqn:Ha; [|discriminate].
  rewrite (as_number_quantity _ Ha).
  destruct (Dict.get total b) as [v|]; [|discriminate].
  destruct (as_int v) as [t|] eqn:Ht; [|discriminate].
  now rewrite (as_number_int _ Ht).
Qed.

(** C6, as the specification words it, fails: the counts need not be
    integers.  With half a copy available out of one and an empty ledger,
    [0 <= available_copies <= total_copies] holds; the rent is granted,
    since 0.5 is not [<= 0], and leaves -0.5 copies. *)
Lemma half_copy_goes_negative :
  rentals half_copy = [] /\
  forallb (within_total "total_copies") (Dict.values (books half_copy))
  = true /\
  Dict.get (KStr "5")
    (books (serve [RentBook "5" "ann" "r-1" "2024-05-01T10:00:00"]
                  half_copy)) =
  Some [("isbn", VStr "5");
        ("total_copies", VInt 1);
        ("available_copies", VFloat minus_half)] /\
  within_total "total_copies"
    [("isbn", VStr "5");
     ("total_copies", VInt 1);
     ("available_copies", VFloat minus_half)] = false.
Proof. repeat apply conj; reflexivity. Qed.


(* ===================================================================== *)
(** ** List User's Active Rentals *)
(* ===================================================================== *)

Lemma open_rental_of_typed user_id r :
  typed_rental r = true ->
  open_rental_of user_id r = Ok (open_for user_id r).
Proof.
  unfold typed_rental, open_rental_of, open_for, rental_user, outstanding,
    getitem, rbind.
  destruct (Dict.get "user_id" r) as [[| | |u| | |]|]; try discriminate.
  destruct (Dict.get "book_id" r) as [[| | |b| | |]|]; try discriminate.
  destruct (Dict.get "rented_at" r); try discriminate.
  destruct (Dict.get "returned_at" r) as [ret_at|]; try discriminate.
  intros _. destruct (py_eq_str (VStr u) user_id); reflexivity.
Qed.

Lemma py_filter_typed user_id (rs : list Rental) :
  forallb typed_rental rs = true ->
  py_filter (open_rental_of user_id) rs = Ok (filter (open_for user_id) rs).
Proof.
  induction rs as [|r rs IH]; simpl; auto.
  intros Ht. apply andb_prop in Ht as [Hr Hrs].
  rewrite (open_rental_of_typed _ _ Hr), (IH Hrs). simpl.
  destruct (open_for user_id r); reflexivity.
Qed.

Lemma collect_books_typed catalog (rs : list Rental) :
  forallb typed_rental rs = true ->
  forall acc,
    collect_books catalog rs acc = Ok (acc ++ flat_map (listing catalog) rs).
Proof.
  induction rs as [|r rs IH]; simpl; intros Ht acc.
  - now rewrite app_nil_r.
  - apply andb_prop in Ht as [Hr Hrs].
    unfold listing at 1, resolve, annotate, field_or_none, getitem, rbind,
      Dict.mem.
    unfold typed_rental in Hr.
    destruct (Dict.get "user_id" r) as [[| | |u| | |]|]; try discriminate.
    destruct (Dict.get "book_id" r) as [[| | |b| | |]|]; try discriminate.
    destruct (Dict.get "rented_at" r) as [t|]; try discriminate.
    cbn [hash].
    destruct (Dict.get (KStr b) catalog) as [bk|].
    + destruct (Dict.get "rental_id" r) as [rid|];
        rewrite (IH Hrs); now rewrite <- app_assoc.
    + now rewrite (IH Hrs).
Qed.

Lemma forallb_filter {A} (p q : A -> bool) (l : list A) :
  forallb p l = true -> forallb p (filter q l) = true.
Proof.
  rewrite !forallb_forall. intros Hall x Hin.
  apply filter_In in Hin as [Hin _]. auto.
Qed.

Lemma length_flat_map_listing catalog (rs : list Rental) :
  List.length (flat_map (listing catalog) rs) =
  List.length (filter (resolves catalog) rs).
Proof.
  induction rs as [|r rs IH]; simpl; auto.
  unfold listing at 1, resolves at 1.
  destruct (resolve catalog r); simpl; auto.
Qed.

(** [list_user_books] over a ledger of typed rentals. *)
Lemma list_user_books_run user_id st :
  typed_ledger (rentals st) = true ->
  list_user_books user_id st =
  (st, Ok (flat_map (listing (books st))
             (filter (open_for user_id) (Dict.values (rentals st))))).
Proof.
  intros Ht. unfold list_user_books, bind, gets, lift.
  rewrite (py_filter_typed _ _ Ht).
  rewrite collect_books_typed; [reflexivity|].
  now apply forallb_filter.
Qed.

(** C7.  Over a ledger of typed rentals, [list_user_books] never fails
    and leaves the tables as they are.  Its answer has, in ledger order,
    one entry for each outstanding rental of the user whose book
    identifier resolves in the catalog and none for the others; the entry
    is the book annotated with the rental's rented-at timestamp and with
    the rental's own identifier if it has one.  A user without outstanding
    rentals gets the empty list. *)
Theorem list_user_books_spec user_id st :
  typed_ledger (rentals st) = true ->
  list_user_books user_id st =
  (st, Ok (flat_map (listing (books st))
             (filter (open_for user_id) (Dict.values (rentals st))))) /\
  List.length (flat_map (listing (books st))
                 (filter (open_for user_id) (Dict.values (rentals st)))) =
  List.length (filter (resolves (books st))
                 (filter (open_for user_id) (Dict.values (rentals st)))) /\
  (filter (open_for user_id) (Dict.values (rentals st)) = [] ->
   list_user_books user_id st = (st, Ok [])).
Proof.
  intros Ht.
  pose proof (list_user_books_run user_id st Ht) as Hrun.
  split; [exact Hrun|]. split.
  - apply length_flat_map_listing.
  - intros Hnone. rewrite Hrun, Hnone. reflexivity.
Qed.

Lemma list_user_books_spec_witness :
  list_user_books "ann" lent_out =
  (lent_out,
   Ok [[("isbn", VStr "7");
        ("total_copies", VInt 1);
        ("available_copies", VInt 0);
        ("rental_id", VNone);
        ("rented_at", VStr "2024-05-01T10:00:00")]]).
Proof.
  exact (proj1 (list_user_books_spec "ann" lent_out eq_refl)).
Defined.

(* ===================================================================== *)
(** ** Rentals carry no identifier of their own *)
(* ===================================================================== *)

Lemma rent_made_stamped r v :
  rent_made r = true -> rent_made (Dict.set "returned_at" v r) = true.
Proof.
  unfold rent_made, typed_rental, Dict.mem.
  rewrite get_set_same, !get_set_other by discriminate.
  destruct (Dict.get "user_id" r) as [[| | |u| | |]|]; try discriminate.
  destruct (Dict.get "book_id" r) as [[| | |b| | |]|]; try discriminate.
  destruct (Dict.get "rented_at" r); try discriminate.
  destruct (Dict.get "returned_at" r); try discriminate.
  auto.
Qed.

Lemma rent_made_handle rq st :
  forallb rent_made (Dict.values (rentals st)) = true ->
  forallb rent_made (Dict.values (rentals (handle rq st))) = true.
Proof.
  intros Hall.
  destruct rq as [|book_id|book_id user_id uuid now|user_id
                  |rental_id user_id now]; cbn [handle].
  - exact Hall.
  - unfold display_details, bind, gets, raise_http, ret.
    destruct (Dict.get (KStr book_id) (books st)) as [[|f b]|]; exact Hall.
  - rewrite rent_book_cases.
    destruct (Dict.get (KStr book_id) (books st)) as [b|]; auto.
    destruct (Dict.get "available_copies" b) as [v|]; auto.
    destruct (as_number v) as [n|]; auto.
    destruct (num_le n 0); auto.
    destruct (py_any _ _) as [[|]| |]; auto.
    cbn [fst rented rentals rented_to returned_to].
    now apply forallb_values_set.
  - unfold list_user_books, bind, gets, lift.
    destruct (py_filter _ _); auto.
  - rewrite return_book_cases.
    destruct (Dict.get rental_id (rentals st)) as [r|] eqn:Hr; auto.
    assert (Hstamp : forall v, forallb rent_made
              (Dict.values (Dict.set rental_id
                 (Dict.set "returned_at" v r) (rentals st))) = true).
    { intros v. apply forallb_values_set; auto.
      apply rent_made_stamped.
      rewrite forallb_forall in Hall. apply Hall. eapply get_In; eauto. }
    destruct (Dict.get "user_id" r) as [owner|]; auto.
    destruct (negb (py_eq_str owner user_id)); auto.
    destruct (Dict.get "returned_at" r) as [ret_at|]; auto.
    destruct (negb (is_none ret_at)); auto.
    destruct (Dict.get "book_id" r) as [book_id|]; auto.
    destruct (hash book_id) as [k| |]; auto.
    destruct (Dict.get k (books st)) as [[|f b]|]; auto.
    destruct (Dict.get "available_copies" (f :: b)) as [v|];
      [|apply Hstamp].
    destruct (as_number v) as [n|]; apply Hstamp.
Qed.

Lemma rent_made_serve rqs st :
  forallb rent_made (Dict.values (rentals st)) = true ->
  forallb rent_made (Dict.values (rentals (serve rqs st))) = true.
Proof.
  unfold serve. revert st.
  induction rqs as [|rq rqs IH]; intros st Hall; simpl; auto.
  apply IH, rent_made_handle, Hall.
Qed.

Lemma rent_made_typed_ledger ledger :
  forallb rent_made (Dict.values ledger) = true -> typed_ledger ledger = true.
Proof.
  unfold typed_ledger. rewrite !forallb_forall. intros Hall r Hin.
  specialize (Hall r Hin). unfold rent_made in Hall.
  now apply andb_prop in Hall as [Ht _].
Qed.

(** Every ledger the handlers build from the empty one is typed. *)
Lemma typed_ledger_reachable init rqs :
  rentals init = [] -> typed_ledger (rentals (serve rqs init)) = true.
Proof.
  intros Hempty. apply rent_made_typed_ledger, rent_made_serve.
  now rewrite Hempty.
Qed.

Lemma listing_rental_id catalog r :
  rent_made r = true ->
  Forall (fun e : Book => Dict.get "rental_id" e = Some VNone)
         (listing catalog r).
Proof.
  intros Hr. unfold rent_made in Hr. apply andb_prop in Hr as [_ Hno].
  unfold listing. destruct (resolve catalog r) as [b|]; constructor; auto.
  unfold annotate, field_or_none. unfold Dict.mem in Hno.
  destruct (Dict.get "rental_id" r); [discriminate|].
  rewrite get_set_other by discriminate. apply get_set_same.
Qed.

(** C10.  The rental that a successful [rent_book] stores under the new
    identifier has no ["rental_id"] field: the identifier is the ledger
    key and is in the response only.  Hence, in any state reached from
    an empty ledger, every entry that [list_user_books] returns has
    [rental_id] set to [None]; and every outstanding rental of the user
    whose book resolves is in the listing, as the book annotated with
    [rental_id] set to [None]. *)
Theorem listed_rental_id_is_none :
  (forall book_id user_id uuid now st st' rc,
     rent_book book_id user_id uuid now st = (st', Ok rc) ->
     rental_id rc = uuid /\
     exists r, Dict.get uuid (rentals st') = Some r /\
               Dict.mem "rental_id" r = false) /\
  (forall init rqs user_id,
     rentals init = [] ->
     exists entries,
       list_user_books user_id (serve rqs init) =
       (serve rqs init, Ok entries) /\
       Forall (fun e : Book => Dict.get "rental_id" e = Some VNone) entries) /\
  (forall init rqs user_id r b,
     rentals init = [] ->
     In r (Dict.values (rentals (serve rqs init))) ->
     open_for user_id r = true ->
     resolve (books (serve rqs init)) r = Some b ->
     exists entries,
       list_user_books user_id (serve rqs init) =
       (serve rqs init, Ok entries) /\
       In (annotate r b) entries /\
       Dict.get "rental_id" (annotate r b) = Some VNone).
Proof.
  split; [|split].
  - intros book_id user_id uuid now st st' rc. rewrite rent_book_cases.
    destruct (Dict.get (KStr book_id) (books st)) as [b|]; [|discriminate].
    destruct (Dict.get "available_copies" b) as [v|]; [|discriminate].
    destruct (as_number v) as [n|]; [|discriminate].
    destruct (num_le n 0); [discriminate|].
    destruct (py_any _ _) as [[|]| |]; try discriminate.
    intros [= <- <-]. split; [reflexivity|].
    eexists.
    cbn [rented rentals rented_to returned_to].
    rewrite get_set_same. split; reflexivity.
  - intros init rqs user_id Hempty.
    assert (Hall : forallb rent_made
                     (Dict.values (rentals (serve rqs init))) = true).
    { apply rent_made_serve. now rewrite Hempty. }
    eexists. split.
    + apply list_user_books_run. now apply rent_made_typed_ledger.
    + apply Forall_flat_map. apply Forall_forall. intros r Hin.
      apply filter_In in Hin as [Hin _].
      apply listing_rental_id.
      rewrite forallb_forall in Hall. auto.
  - intros init rqs user_id r b Hempty Hin Hopen Hres.
    assert (Hall : forallb rent_made
                     (Dict.values (rentals (serve rqs init))) = true).
    { apply rent_made_serve. now rewrite Hempty. }
    assert (Hlisting : listing (books (serve rqs init)) r = [annotate r b]).
    { unfold listing. now rewrite Hres. }
    eexists. split; [|split].
    + apply list_user_books_run. now apply rent_made_typed_ledger.
    + apply in_flat_map. exists r. split.
      * apply filter_In. auto.
      * rewrite Hlisting. now left.
    + rewrite forallb_forall in Hall.
      pose proof (listing_rental_id (books (serve rqs init)) r
                    (Hall r Hin)) as Hnone.
      rewrite Hlisting in Hnone. now apply Forall_inv in Hnone.
Qed.

Lemma listed_rental_id_is_none_witness :
  exists entries,
    list_user_books "bob"
      (serve [RentBook "123" "alice" "r-1" "2024-05-01T10:00:00";
              RentBook "123" "bob" "r-2" "2024-05-01T11:00:00"]
             library_123) =
    (serve [RentBook "123" "alice" "r-1" "2024-05-01T10:00:00";
            RentBook "123" "bob" "r-2" "2024-05-01T11:00:00"]
           library_123, Ok entries) /\
    In [("isbn", VStr "123");
        ("title", VStr "A Book");
        ("author", VStr "An Author");
        ("total_copies", VInt 2);
        ("available_copies", VInt 0);
        ("rental_id", VNone);
        ("rented_at", VStr "2024-05-01T11:00:00")] entries /\
    Dict.get "rental_id"
      [("isbn", VStr "123");
       ("title", VStr "A Book");
       ("author", VStr "An Author");
       ("total_copies", VInt 2);
       ("available_copies", VInt 0);
       ("rental_id", VNone);
       ("rented_at", VStr "2024-05-01T11:00:00")] = Some VNone.
Proof.
  refine (proj2 (proj2 listed_rental_id_is_none) library_123
            [RentBook "123" "alice" "r-1" "2024-05-01T10:00:00";
             RentBook "123" "bob" "r-2" "2024-05-01T11:00:00"]
            "bob" (new_rental "bob" "123" "2024-05-01T11:00:00")
            [("isbn", VStr "123");
             ("title", VStr "A Book");
             ("author", VStr "An Author");
             ("total_copies", VInt 2);
             ("available_copies", VInt 0)]
            eq_refl _ eq_refl eq_refl).
  cbn. auto.
Defined.

(* ===================================================================== *)
(** ** The test scenario *)
(* ===================================================================== *)

Lemma rent_book_typed_run book_id user_id uuid now st b a :
  typed_ledger (rentals st) = true ->
  Dict.get (KStr book_id) (books st) = Some b ->
  available b = Some a ->
  rent_book book_id user_id uuid now st =
  if a <=? 0 then
    (st, HTTPException 400
           "There are no copies of this book available for rent")
  else if has_outstanding user_id book_id (rentals st) then
    (st, HTTPException 400 "Book already rented by this user")
  else
    (rented st book_id user_id uuid now b a,
     Ok {| message := "Book rented successfully";
           rental_id := uuid;
           book := Dict.set "available_copies" (VInt (a - 1)) b |}).
Proof.
  intros Ht Hb Ha. rewrite rent_book_cases, Hb. unfold available in Ha.
  destruct (Dict.get "available_copies" b) as [v|]; [|discriminate].
  rewrite (as_number_int _ Ha), (py_any_typed _ _ _ Ht).
  cbn [num_le num_sub num_value].
  destruct (a <=? 0); [reflexivity|].
  destruct (has_outstanding user_id book_id (rentals st)); reflexivity.
Qed.

(** C9.  Book 123 has two copies, both available, and nothing is rented.
    Alice rents it (one copy left); alice asking again is refused with
    400; bob rents it (no copy left); carol is refused with 400 for want
    of copies; alice returns her rental (one copy available); alice
    returning it again is refused with 400.  [r1] and [r2] are the
    identifiers drawn for the two rentals. *)
Theorem scenario_two_copies r1 r2 r3 r4 t1 t2 t3 t4 t5 t6 :
  r1 <> r2 ->
  exists s1 s2 s3 b1 b2 b3,
    rent_book "123" "alice" r1 t1 library_123 =
    (s1, Ok {| message := "Book rented successfully";
               rental_id := r1; book := b1 |}) /\
    available b1 = Some 1 /\
    rent_book "123" "alice" r3 t2 s1 =
    (s1, HTTPException 400 "Book already rented by this user") /\
    rent_book "123" "bob" r2 t3 s1 =
    (s2, Ok {| message := "Book rented successfully";
               rental_id := r2; book := b2 |}) /\
    available b2 = Some 0 /\
    rent_book "123" "carol" r4 t4 s2 =
    (s2, HTTPException 400
           "There are no copies of this book available for rent") /\
    return_book r1 "alice" t5 s2 =
    (s3, Ok {| message := "Book returned successfully";
               rental_id := r1; book := b3 |}) /\
    available b3 = Some 1 /\
    return_book r1 "alice" t6 s3 =
    (s3, HTTPException 400 "Book already returned").
Proof.
  intros Hne.
  assert (E21 : key_eqb r2 r1 = false).
  { apply key_eqb_neq. congruence. }
  pose (with_copies n := Dict.set "available_copies" (VInt n) book_123).
  pose (s1 := {| books := [(KStr "123", with_copies 1)];
                 rentals := [(r1, new_rental "alice" "123" t1)] |}).
  pose (s2 := {| books := [(KStr "123", with_copies 0)];
                 rentals := [(r1, new_rental "alice" "123" t1);
                             (r2, new_rental "bob" "123" t3)] |}).
  pose (s3 := {| books := [(KStr "123", with_copies 1)];
                 rentals := [(r1, Dict.set "returned_at" (VStr t5)
                                    (new_rental "alice" "123" t1));
                             (r2, new_rental "bob" "123" t3)] |}).
  exists s1, s2, s3, (with_copies 1), (with_copies 0), (with_copies 1).
  repeat apply conj.
  - reflexivity.
  - reflexivity.
  - rewrite (rent_book_typed_run "123" "alice" r3 t2 s1 (b:=with_copies 1)
               (a:=1)); reflexivity.
  - rewrite (rent_book_typed_run "123" "bob" r2 t3 s1 (b:=with_copies 1)
               (a:=1)); try reflexivity.
    unfold rented, rented_to, s1, s2. cbn. now rewrite E21.
  - reflexivity.
  - rewrite (rent_book_typed_run "123" "carol" r4 t4 s2 (b:=with_copies 0)
               (a:=0)); reflexivity.
  - rewrite return_book_cases. unfold s2, s3. cbn.
    rewrite (key_eqb_refl r1). unfold returned, returned_to. cbn.
    rewrite (key_eqb_refl r1). reflexivity.
  - reflexivity.
  - rewrite return_book_cases. unfold s3. cbn.
    rewrite (key_eqb_refl r1). reflexivity.
Qed.

Lemma scenario_two_copies_witness :
  exists s1 s2 s3 b1 b2 b3,
    rent_book "123" "alice" "r-1" "09:00" library_123 =
    (s1, Ok {| message := "Book rented successfully";
               rental_id := "r-1"; book := b1 |}) /\
    available b1 = Some 1 /\
    rent_book "123" "alice" "r-3" "09:05" s1 =
    (s1, HTTPException 400 "Book already rented by this user") /\
    rent_book "123" "bob" "r-2" "09:10" s1 =
    (s2, Ok {| message := "Book rented successfully";
               rental_id := "r-2"; book := b2 |}) /\
    available b2 = Some 0 /\
    rent_book "123" "carol" "r-4" "09:15" s2 =
    (s2, HTTPException 400
           "There are no copies of this book available for rent") /\
    return_book "r-1" "alice" "09:20" s2 =
    (s3, Ok {| message := "Book returned successfully";
               rental_id := "r-1"; book := b3 |}) /\
    available b3 = Some 1 /\
    return_book "r-1" "alice" "09:25" s3 =
    (s3, HTTPException 400 "Book already returned").
Proof.
  assert (Hne : "r-1" <> "r-2") by discriminate.
  exact (scenario_two_copies "r-3" "r-4" "09:00" "09:05" "09:10" "09:15"
           "09:20" "09:25" Hne).
Defined.

(* ===================================================================== *)
(** ** Catalog load *)
(* ===================================================================== *)

Lemma index_by_isbn_get entries :
  forall acc catalog k b,
    index_by_isbn entries acc = Ok catalog ->
    Dict.get k catalog = Some b ->
    Dict.get k acc = Some b \/
    exists isbn, In (VDict b) entries /\
                 Dict.get "isbn" b = Some isbn /\ hash isbn = Ok k.
Proof.
  induction entries as [|entry rest IH]; simpl; intros acc catalog k b Hrun Hk.
  - injection Hrun as <-. now left.
  - destruct entry as [| | | | |fields|]; try discriminate. simpl in Hrun.
    unfold getitem in Hrun.
    destruct (Dict.get "isbn" fields) as [isbn|] eqn:Hisbn; [|discriminate].
    simpl in Hrun.
    destruct (hash isbn) as [k0| |] eqn:Hk0; try discriminate.
    simpl in Hrun.
    destruct (IH _ _ _ _ Hrun Hk) as [Hacc|(isbn' & Hin & Hi & Hh)].
    + destruct (key_eqb_spec k0 k) as [<-|Hne].
      * rewrite get_set_same in Hacc. injection Hacc as <-.
        right. exists isbn. auto.
      * rewrite get_set_other in Hacc by assumption. now left.
    + right. exists isbn'. auto.
Qed.

Lemma fill_all_get catalog :
  forall filled k b,
    fill_all catalog = Ok filled ->
    Dict.get k filled = Some b ->
    exists entry, Dict.get k catalog = Some entry /\
                  fill_available entry = Ok b.
Proof.
  induction catalog as [|[k0 b0] rest IH]; intros filled k b Hrun Hk.
  - injection Hrun as <-. discriminate.
  - cbn [fill_all] in Hrun.
    destruct (fill_available b0) as [b0'| |] eqn:Hb0; try discriminate.
    cbn [rbind] in Hrun.
    destruct (fill_all rest) as [rest'| |]; try discriminate.
    cbn [rbind] in Hrun. injection Hrun as <-.
    cbn [Dict.get] in Hk |- *.
    destruct (key_eqb k k0).
    + injection Hk as <-. exists b0. split; [reflexivity|assumption].
    + eapply IH; eauto.
Qed.

(** C8.  Every book of the loaded catalog comes from an entry of the
    document, filed under that entry's ["isbn"]: it is the entry itself
    when the entry supplied ["available_copies"], and otherwise the entry
    with ["available_copies"] set to its total-copy count (the field
    ["totalCopies"]), so that the two counts are equal.  Whenever the
    [try] block raises, the catalog is empty. *)
Theorem load_spec src :
  (forall k b,
     Dict.get k (load src) = Some b ->
     exists entry isbn,
       In (VDict entry) (source_entries src) /\
       Dict.get "isbn" entry = Some isbn /\ hash isbn = Ok k /\
       (Dict.mem "available_copies" entry = true /\ b = entry \/
        Dict.mem "available_copies" entry = false /\
        exists total,
          Dict.get "totalCopies" entry = Some total /\
          b = Dict.set "available_copies" total entry /\
          Dict.get "available_copies" b = Some total /\
          Dict.get "totalCopies" b = Some total)) /\
  (is_ok (load_try src) = false -> load src = []).
Proof.
  split.
  - intros k b. unfold load, load_try, source_entries.
    destruct src as [|data]; [discriminate|].
    destruct (get_books data) as [listed| |]; try discriminate. simpl.
    destruct (py_iter listed) as [entries| |]; try discriminate. simpl.
    destruct (index_by_isbn entries []) as [catalog| |] eqn:Hidx;
      try discriminate.
    simpl.
    destruct (fill_all catalog) as [filled| |] eqn:Hfill; try discriminate.
    intros Hk.
    destruct (fill_all_get _ _ Hfill Hk) as (entry & Hentry & Hb).
    destruct (index_by_isbn_get _ _ _ Hidx Hentry)
      as [Habs|(isbn & Hin & Hisbn & Hhash)]; [discriminate|].
    exists entry, isbn. repeat split; auto.
    unfold fill_available, getitem in Hb.
    destruct (Dict.mem "available_copies" entry); simpl in Hb.
    + left. split; congruence.
    + right. split; auto.
      destruct (Dict.get "totalCopies" entry) as [total|] eqn:Ht;
        [|discriminate].
      simpl in Hb. injection Hb as <-.
      exists total. repeat split.
      * apply get_set_same.
      * rewrite get_set_other by discriminate. exact Ht.
  - unfold load. destruct (load_try src); auto. discriminate.
Qed.

Lemma load_spec_witness :
  Dict.get (KStr "123") (load books_json) =
  Some [("isbn", VStr "123"); ("title", VStr "A Book");
        ("author", VStr "An Author"); ("totalCopies", VInt 2);
        ("available_copies", VInt 2)] /\
  exists entry isbn,
    In (VDict entry) (source_entries books_json) /\
    Dict.get "isbn" entry = Some isbn /\ hash isbn = Ok (KStr "123").
Proof.
  split; [reflexivity|].
  destruct (proj1 (load_spec books_json) (KStr "123") _ eq_refl)
    as (entry & isbn & Hin & Hisbn & Hhash & _).
  exists entry, isbn. auto.
Defined.

(** An entry that names its total ["total_copies"], as the class [Book]
    does, and gives no ["available_copies"], makes the loop raise
    [KeyError]; the catalog is then empty. *)
Example load_total_copies_only :
  load (Document (VDict [("books", VList [
          VDict [("isbn", VStr "123"); ("title", VStr "A Book");
                 ("author", VStr "An Author");
                 ("total_copies", VInt 2)]])])) = [].
Proof. reflexivity. Qed.

(* ===================================================================== *)
(** ** Further runs of the handlers *)
(* ===================================================================== *)

(** [GET /v1/books/unknown-isbn] answers 404. *)
Example display_details_unknown :
  display_details "unknown-isbn" library_123 =
  (library_123, HTTPException 404 "Book was not found").
Proof. reflexivity. Qed.

Example display_details_known :
  display_details "123" library_123 = (library_123, Ok book_123).
Proof. reflexivity. Qed.

Example list_books_all :
  list_books library_123 = (library_123, Ok [book_123]).
Proof. reflexivity. Qed.

(** After one rental alice's list has one entry, book 123 with its
    rented-at timestamp; once she has returned it the list is empty. *)
Example list_user_books_after_rent_and_return :
  snd (list_user_books "alice"
         (serve [RentBook "123" "alice" "r-1" "2024-05-01T10:00:00"]
                library_123)) =
  Ok [[("isbn", VStr "123");
       ("title", VStr "A Book");
       ("author", VStr "An Author");
       ("total_copies", VInt 2);
       ("available_copies", VInt 1);
       ("rental_id", VNone);
       ("rented_at", VStr "2024-05-01T10:00:00")]] /\
  snd (list_user_books "alice"
         (serve [RentBook "123" "alice" "r-1" "2024-05-01T10:00:00";
                 ReturnBook "r-1" "alice" "2024-05-02T10:00:00"]
                library_123)) = Ok [].
Proof. split; reflexivity. Qed.

(** Once returned, the same user may rent the same book again; the new
    rental is a record of its own. *)
Example rent_again_after_return :
  Dict.keys (rentals
    (serve [RentBook "123" "alice" "r-1" "2024-05-01T10:00:00";
            ReturnBook "r-1" "alice" "2024-05-02T10:00:00";
            RentBook "123" "alice" "r-2" "2024-05-03T10:00:00"]
           library_123)) = ["r-1"; "r-2"].
Proof. reflexivity. Qed.

(** Outside the data model the handlers raise instead of answering: a
    count that is not a number makes the comparison of [rent_book] a
    [TypeError]. *)
Example rent_book_untyped_count :
  snd (rent_book "9" "ann" "r-1" "2024-05-01T10:00:00"
         {| books := [(KStr "9", [("isbn", VStr "9");
                                  ("available_copies", VStr "two")])];
            rentals := [] |}) = Raise TypeError.
Proof. reflexivity. Qed.

(* ===================================================================== *)
(** ** More dictionary lemmas *)
(* ===================================================================== *)

Section MoreDictFacts.
Context {K V : Type} `{HashableLaws K}.
Implicit Types (k : K) (v : V) (d : Dict.t K V).

Lemma set_same_value k v d : Dict.get k d = Some v -> Dict.set k v d = d.
Proof.
  induction d as [|[k' v'] d IH]; simpl; [discriminate|].
  destruct (key_eqb k k').
  - now intros [= ->].
  - intros Hg. now rewrite IH.
Qed.

Lemma set_set k v1 v2 d :
  Dict.set k v2 (Dict.set k v1 d) = Dict.set k v2 d.
Proof.
  induction d as [|[k' v'] d IH]; simpl.
  - now rewrite key_eqb_refl.
  - destruct (key_eqb k k') eqn:E; simpl; rewrite E; [reflexivity|].
    now rewrite IH.
Qed.

Lemma set_nonempty k v d : Dict.set k v d <> [].
Proof.
  destruct d as [|[k' v'] d]; simpl; [discriminate|].
  destruct (key_eqb k k'); discriminate.
Qed.

Lemma get_None_keys k d : Dict.get k d = None -> ~ In k (Dict.keys d).
Proof.
  unfold Dict.keys. induction d as [|[k' v'] d IH]; simpl; auto.
  destruct (key_eqb_spec k k') as [->|Hne]; [discriminate|].
  intros Hg [Heq|Hin]; [congruence|]. now apply IH.
Qed.

Lemma keys_set k v d :
  Dict.keys (Dict.set k v d) =
  if Dict.mem k d then Dict.keys d else Dict.keys d ++ [k].
Proof.
  unfold Dict.mem.
  destruct (Dict.get k d) as [v0|] eqn:Hg.
  - eapply keys_set_present; eauto.
  - rewrite set_absent by assumption. unfold Dict.keys.
    now rewrite map_app.
Qed.

Lemma NoDup_keys_set k v d :
  NoDup (Dict.keys d) -> NoDup (Dict.keys (Dict.set k v d)).
Proof.
  intros Hnd. rewrite keys_set. unfold Dict.mem.
  destruct (Dict.get k d) eqn:Hg; auto.
  apply NoDup_app; auto.
  - constructor; [intros []|constructor].
  - intros x Hin [<-|[]]. exact (get_None_keys _ _ Hg Hin).
Qed.

Lemma get_set_is_some k k' v v0 d :
  Dict.get k d = Some v0 ->
  Dict.get k' (Dict.set k v d) = None <-> Dict.get k' d = None.
Proof.
  intros Hg. destruct (key_eqb_spec k k') as [<-|Hne].
  - rewrite get_set_same, Hg. split; discriminate.
  - now rewrite get_set_other.
Qed.

End MoreDictFacts.

(* ===================================================================== *)
(** ** How a request leaves the tables *)
(* ===================================================================== *)

Lemma is_none_VNone v : is_none v = true -> v = VNone.
Proof. destruct v; simpl; congruence. Qed.

Lemma handle_effect rq st : effect rq st (handle rq st).
Proof.
  destruct rq as [|book_id|book_id user_id uuid now|user_id
                  |rental_id user_id now]; cbn [handle].
  - apply effect_none.
  - unfold display_details, bind, gets, raise_http, ret.
    destruct (Dict.get (KStr book_id) (books st)) as [[|f b]|];
      apply effect_none.
  - rewrite rent_book_cases.
    destruct (Dict.get (KStr book_id) (books st)) as [b|] eqn:Hb;
      try apply effect_none.
    destruct (Dict.get "available_copies" b) as [v|] eqn:Hv;
      try apply effect_none.
    destruct (as_number v) as [n|] eqn:Ha; try apply effect_none.
    destruct (num_le n 0) eqn:Hpos; try apply effect_none.
    destruct (py_any (holds_book user_id book_id) (Dict.values (rentals st)))
      as [[|]| |] eqn:Hany; try apply effect_none.
    cbn [fst]. eapply effect_rent; eauto. unfold quantity. now rewrite Hv.
  - unfold list_user_books, bind, gets, lift.
    destruct (py_filter _ _); apply effect_none.
  - rewrite return_book_cases.
    destruct (Dict.get rental_id (rentals st)) as [r|] eqn:Hr;
      try apply effect_none.
    destruct (Dict.get "user_id" r) as [owner|] eqn:Hu;
      try apply effect_none.
    destruct (py_eq_str owner user_id) eqn:Heq; cbn [negb];
      try apply effect_none.
    apply py_eq_str_true in Heq. subst owner.
    destruct (Dict.get "returned_at" r) as [ret_at|] eqn:Hret;
      try apply effect_none.
    destruct (is_none ret_at) eqn:Hnone; cbn [negb]; try apply effect_none.
    apply is_none_VNone in Hnone. subst ret_at.
    destruct (Dict.get "book_id" r) as [book_id|] eqn:Hbid;
      try apply effect_none.
    destruct (hash book_id) as [k| |] eqn:Hk; try apply effect_none.
    destruct (Dict.get k (books st)) as [[|f b]|] eqn:Hb;
      try apply effect_none.
    destruct (Dict.get "available_copies" (f :: b)) as [v|] eqn:Hv.
    + destruct (as_number v) as [n|] eqn:Ha; cbn [fst].
      * eapply effect_return; eauto. unfold quantity. now rewrite Hv.
      * eapply effect_stamp; eauto. unfold quantity. now rewrite Hv.
    + cbn [fst]. eapply effect_stamp; eauto. unfold quantity.
      now rewrite Hv.
Qed.

Lemma serve_cons rq rqs st : serve (rq :: rqs) st = serve rqs (handle rq st).
Proof. reflexivity. Qed.

Lemma mem_keys {K V : Type} `{HashableLaws K} (k : K) (d : Dict.t K V) :
  Dict.mem k d = existsb (key_eqb k) (Dict.keys d).
Proof.
  unfold Dict.mem, Dict.keys. induction d as [|[k' v'] d IH]; simpl; auto.
  destruct (key_eqb k k'); auto.
Qed.

(* ===================================================================== *)
(** ** The catalog at run time *)
(* ===================================================================== *)

Lemma effect_books_keys rq st st' :
  effect rq st st' -> Dict.keys (books st') = Dict.keys (books st).
Proof.
  intros Heff.
  destruct Heff;
    cbn [rented returned stamped books rented_to returned_to];
    auto; eapply keys_set_present; eauto.
Qed.

Lemma serve_books_keys rqs st :
  Dict.keys (books (serve rqs st)) = Dict.keys (books st).
Proof.
  revert st. induction rqs as [|rq rqs IH]; intros st; auto.
  rewrite serve_cons, IH. apply (effect_books_keys (handle_effect rq st)).
Qed.

(** X1.  No request adds a book to the catalog, removes one or reorders
    it: after any sequence of requests the catalog has the keys it had, in
    the same order, so [list_books] lists as many books and the same
    identifiers are known. *)
Theorem catalog_keys_fixed rqs st :
  Dict.keys (books (serve rqs st)) = Dict.keys (books st) /\
  List.length (Dict.values (books (serve rqs st))) =
  List.length (Dict.values (books st)) /\
  (forall k, Dict.mem k (books (serve rqs st)) = Dict.mem k (books st)).
Proof.
  pose proof (serve_books_keys rqs st) as Hkeys.
  split; [exact Hkeys|]. split.
  - unfold Dict.values. rewrite !length_map.
    rewrite <- (length_map fst (books (serve rqs st))).
    rewrite <- (length_map fst (books st)).
    fold (Dict.keys (books (serve rqs st))). fold (Dict.keys (books st)).
    now rewrite Hkeys.
  - intros k. now rewrite !mem_keys, Hkeys.
Qed.

Lemma effect_book_fields rq st st' k b :
  effect rq st st' ->
  Dict.get k (books st) = Some b ->
  exists b',
    Dict.get k (books st') = Some b' /\
    forall field, field <> "available_copies" ->
                  Dict.get field b' = Dict.get field b.
Proof.
  intros Heff Hb.
  assert (Hset : forall k0 b0 copies,
             Dict.get k0 (books st) = Some b0 ->
             exists b',
               Dict.get k
                 (Dict.set k0 (Dict.set "available_copies" copies b0)
                    (books st)) = Some b' /\
               forall field, field <> "available_copies" ->
                             Dict.get field b' = Dict.get field b).
  { intros k0 b0 copies Hb0. destruct (key_eqb_spec k0 k) as [->|Hne].
    - rewrite get_set_same. eexists. split; [reflexivity|].
      intros field Hf. rewrite get_set_other by congruence. congruence.
    - rewrite get_set_other by assumption. eauto. }
  destruct Heff; cbn [stamped books rented_to returned_to]; eauto.
Qed.

Lemma serve_book_fields rqs st k b :
  Dict.get k (books st) = Some b ->
  exists b',
    Dict.get k (books (serve rqs st)) = Some b' /\
    forall field, field <> "available_copies" ->
                  Dict.get field b' = Dict.get field b.
Proof.
  revert st b. induction rqs as [|rq rqs IH]; intros st b Hb.
  - exists b. auto.
  - rewrite serve_cons.
    destruct (effect_book_fields k (handle_effect rq st) Hb)
      as (b1 & Hb1 & H1).
    destruct (IH _ _ Hb1) as (b2 & Hb2 & H2).
    exists b2. split; auto. intros field Hf. rewrite H2, H1; auto.
Qed.

(** X2.  The only field of a book that requests ever change is
    ["available_copies"]: after any sequence of requests every book is
    still filed under its key and has all its other fields as they were. *)
Theorem only_available_copies_changes rqs st k b :
  Dict.get k (books st) = Some b ->
  exists b',
    Dict.get k (books (serve rqs st)) = Some b' /\
    forall field, field <> "available_copies" ->
                  Dict.get field b' = Dict.get field b.
Proof. apply serve_book_fields. Qed.

Lemma only_available_copies_changes_witness :
  exists b',
    Dict.get (KStr "123")
      (books (serve [RentBook "123" "alice" "r-1" "2024-05-01T10:00:00"]
                    library_123)) = Some b' /\
    forall field, field <> "available_copies" ->
                  Dict.get field b' = Dict.get field book_123.
Proof.
  exact (only_available_copies_changes
           [RentBook "123" "alice" "r-1" "2024-05-01T10:00:00"]
           library_123 (KStr "123") eq_refl).
Defined.

(* ===================================================================== *)
(** ** The ledger at run time *)
(* ===================================================================== *)

Lemma effect_rentals_keys rq st st' :
  effect rq st st' ->
  exists suffix,
    Dict.keys (rentals st') = Dict.keys (rentals st) ++ suffix.
Proof.
  intros Heff.
  destruct Heff;
    cbn [rented returned stamped rentals rented_to returned_to].
  - exists []. now rewrite app_nil_r.
  - rewrite keys_set. destruct (Dict.mem uuid (rentals st)).
    + exists []. now rewrite app_nil_r.
    + eauto.
  - exists []. rewrite app_nil_r. eapply keys_set_present; eauto.
  - exists []. rewrite app_nil_r. eapply keys_set_present; eauto.
Qed.

(** X3.  The ledger only grows: after any sequence of requests its keys
    are the keys it had, in the same order, possibly followed by further
    ones.  No rental is ever removed. *)
Theorem ledger_append_only rqs st :
  exists suffix,
    Dict.keys (rentals (serve rqs st)) = Dict.keys (rentals st) ++ suffix.
Proof.
  revert st. induction rqs as [|rq rqs IH]; intros st.
  - exists []. now rewrite app_nil_r.
  - rewrite serve_cons. destruct (IH (handle rq st)) as (s2 & H2).
    destruct (effect_rentals_keys (handle_effect rq st)) as (s1 & H1).
    exists (s1 ++ s2). now rewrite H2, H1, app_assoc.
Qed.

Lemma effect_rental_fields rid rq st st' r :
  effect rq st st' ->
  draws rid rq = false ->
  Dict.get rid (rentals st) = Some r ->
  exists r',
    Dict.get rid (rentals st') = Some r' /\
    (forall field, field <> "returned_at" ->
                   Dict.get field r' = Dict.get field r) /\
    (outstanding r = false -> r' = r) /\
    (outstanding r' = true -> r' = r).
Proof.
  intros Heff Hdraw Hr.
  assert (Hstamp : forall rental_id now r0,
             Dict.get rental_id (rentals st) = Some r0 ->
             Dict.get "returned_at" r0 = Some VNone ->
             exists r',
               Dict.get rid
                 (Dict.set rental_id (Dict.set "returned_at" (VStr now) r0)
                    (rentals st)) = Some r' /\
               (forall field, field <> "returned_at" ->
                              Dict.get field r' = Dict.get field r) /\
               (outstanding r = false -> r' = r) /\
               (outstanding r' = true -> r' = r)).
  { intros rental_id now r0 Hr0 Hret.
    destruct (key_eqb_spec rental_id rid) as [->|Hne].
    - rewrite get_set_same. rewrite Hr in Hr0. injection Hr0 as <-.
      eexists. split; [reflexivity|]. repeat apply conj.
      + intros field Hf. apply get_set_other. congruence.
      + unfold outstanding. rewrite Hret. discriminate.
      + unfold outstanding. rewrite get_set_same. discriminate.
    - rewrite get_set_other by assumption. exists r. auto. }
  destruct Heff;
    cbn [rented returned stamped rentals rented_to returned_to];
    eauto.
  cbn [draws] in Hdraw. apply String.eqb_neq in Hdraw.
  rewrite get_set_other by assumption. exists r. auto.
Qed.

(** X4.  A rental keeps its user, its book and its rented-at timestamp:
    as long as its identifier is not drawn again, any sequence of
    requests leaves the rental in the ledger with every field other than
    ["returned_at"] as it was. *)
Theorem rental_identity_fixed rid rqs st r :
  never_draws rid rqs = true ->
  Dict.get rid (rentals st) = Some r ->
  exists r',
    Dict.get rid (rentals (serve rqs st)) = Some r' /\
    forall field, field <> "returned_at" ->
                  Dict.get field r' = Dict.get field r.
Proof.
  revert st r. induction rqs as [|rq rqs IH]; intros st r Hnd Hr.
  - exists r. auto.
  - cbn [never_draws forallb] in Hnd. apply andb_prop in Hnd as [Hrq Hnd].
    apply negb_true_iff in Hrq. rewrite serve_cons.
    destruct (effect_rental_fields rid (handle_effect rq st) Hrq Hr)
      as (r1 & Hr1 & H1 & _).
    destruct (IH _ _ Hnd Hr1) as (r2 & Hr2 & H2).
    exists r2. split; auto. intros field Hf. rewrite H2, H1; auto.
Qed.

Lemma rental_identity_fixed_witness :
  exists r',
    Dict.get "r-1"
      (rentals (serve [RentBook "7" "bea" "r-2" "2024-05-02T09:00:00";
                       ReturnBook "r-1" "ann" "2024-05-03T08:00:00"]
                      lent_out)) = Some r' /\
    forall field, field <> "returned_at" ->
                  Dict.get field r' =
                  Dict.get field (new_rental "ann" "7" "2024-05-01T10:00:00").
Proof.
  exact (rental_identity_fixed "r-1"
           [RentBook "7" "bea" "r-2" "2024-05-02T09:00:00";
            ReturnBook "r-1" "ann" "2024-05-03T08:00:00"]
           lent_out eq_refl eq_refl).
Defined.

Lemma serve_keeps_returned rid rqs st r :
  never_draws rid rqs = true ->
  Dict.get rid (rentals st) = Some r ->
  outstanding r = false ->
  Dict.get rid (rentals (serve rqs st)) = Some r.
Proof.
  revert st. induction rqs as [|rq rqs IH]; intros st Hnd Hr Hout; auto.
  cbn [never_draws forallb] in Hnd. apply andb_prop in Hnd as [Hrq Hnd].
  apply negb_true_iff in Hrq. rewrite serve_cons.
  destruct (effect_rental_fields rid (handle_effect rq st) Hrq Hr)
    as (r1 & Hr1 & _ & Hsame & _).
  rewrite (Hsame Hout) in Hr1. now apply IH.
Qed.

(** X5.  Returned is final: a rental that is not outstanding is never
    touched again.  As long as its identifier is not drawn again, any
    sequence of requests leaves the very same record in the ledger; in
    particular its return timestamp is set at most once. *)
Theorem returned_is_final rid rqs st r :
  never_draws rid rqs = true ->
  Dict.get rid (rentals st) = Some r ->
  outstanding r = false ->
  Dict.get rid (rentals (serve rqs st)) = Some r.
Proof. apply serve_keeps_returned. Qed.

Lemma returned_is_final_witness :
  Dict.get "r-1"
    (rentals (serve [ReturnBook "r-1" "ann" "2024-05-09T08:00:00";
                     RentBook "7" "bea" "r-2" "2024-05-09T09:00:00"]
                    (fst (return_book "r-1" "ann" "2024-05-03T08:00:00"
                            lent_out)))) =
  Some [("user_id", VStr "ann"); ("book_id", VStr "7");
        ("rented_at", VStr "2024-05-01T10:00:00");
        ("returned_at", VStr "2024-05-03T08:00:00")].
Proof.
  exact (returned_is_final "r-1"
           [ReturnBook "r-1" "ann" "2024-05-09T08:00:00";
            RentBook "7" "bea" "r-2" "2024-05-09T09:00:00"]
           (fst (return_book "r-1" "ann" "2024-05-03T08:00:00" lent_out))
           eq_refl eq_refl eq_refl).
Defined.

(** C1, as the code has it.  A rental is returned at most once.  After a
    successful return, and after any further requests among which no rent
    draws the identifier of the rental again, a return of that rental
    never succeeds and leaves the tables alone: it is refused with 400
    when the caller gives the user identifier of the first return, and
    with 403 when the caller gives any other one. *)
Theorem return_book_at_most_once
    rental_id user_id now st st' rc rqs user_id' now' :
  return_book rental_id user_id now st = (st', Ok rc) ->
  never_draws rental_id rqs = true ->
  return_book rental_id user_id' now' (serve rqs st') =
  (serve rqs st',
   if String.eqb user_id user_id'
   then HTTPException 400 "Book already returned"
   else HTTPException 403
          "Unauthorized: This rental belongs to another user").
Proof.
  rewrite return_book_cases.
  destruct (Dict.get rental_id (rentals st)) as [r|] eqn:Hr; [|discriminate].
  destruct (Dict.get "user_id" r) as [owner|] eqn:Hu; [|discriminate].
  destruct (py_eq_str owner user_id) eqn:Heq; [|discriminate].
  apply py_eq_str_true in Heq. subst owner. cbn [negb].
  destruct (Dict.get "returned_at" r) as [ret_at|]; [|discriminate].
  destruct (negb (is_none ret_at)); [discriminate|].
  destruct (Dict.get "book_id" r) as [book_id|]; [|discriminate].
  destruct (hash book_id) as [k| |]; try discriminate.
  destruct (Dict.get k (books st)) as [[|f b]|]; try discriminate.
  destruct (Dict.get "available_copies" (f :: b)) as [v|]; [|discriminate].
  destruct (as_number v) as [n|]; [|discriminate].
  intros [= <- _] Hnd.
  assert (Hkept : Dict.get rental_id
                    (rentals (serve rqs
                       (returned_to st rental_id now r k (f :: b)
                          (num_value (num_add n 1))))) =
                  Some (Dict.set "returned_at" (VStr now) r)).
  { apply serve_keeps_returned; auto.
    - cbn [returned_to rentals]. apply get_set_same.
    - unfold outstanding. now rewrite get_set_same. }
  rewrite return_book_cases, Hkept.
  rewrite get_set_other, Hu by discriminate.
  cbn [py_eq_str].
  destruct (String.eqb user_id user_id'); cbn [negb]; [|reflexivity].
  now rewrite get_set_same.
Qed.

Lemma return_book_at_most_once_witness :
  return_book "r-1" "ann" "2024-05-09T08:00:00"
    (serve [RentBook "7" "bea" "r-2" "2024-05-04T09:00:00";
            ListUserBooks "ann"]
           (fst (return_book "r-1" "ann" "2024-05-03T08:00:00" lent_out))) =
  (serve [RentBook "7" "bea" "r-2" "2024-05-04T09:00:00";
          ListUserBooks "ann"]
         (fst (return_book "r-1" "ann" "2024-05-03T08:00:00" lent_out)),
   HTTPException 400 "Book already returned").
Proof.
  exact (@return_book_at_most_once
           "r-1" "ann" "2024-05-03T08:00:00" lent_out _ _
           [RentBook "7" "bea" "r-2" "2024-05-04T09:00:00";
            ListUserBooks "ann"]
           "ann" "2024-05-09T08:00:00" eq_refl eq_refl).
Defined.

(** Once a rent has drawn the identifier of a returned rental again, the
    identifier names the new rental, and that one can be returned. *)
Example return_after_redraw :
  is_ok (snd (return_book "r-1" "ann" "2024-05-09T08:00:00"
                (serve [RentBook "7" "ann" "r-1" "2024-05-04T09:00:00"]
                       (fst (return_book "r-1" "ann" "2024-05-03T08:00:00"
                               lent_out))))) = true.
Proof. reflexivity. Qed.


(* ===================================================================== *)
(** ** One outstanding rental per user and book *)
(* ===================================================================== *)

Lemma existsb_false_filter {A} (p : A -> bool) (l : list A) :
  existsb p l = false -> filter p l = [].
Proof.
  induction l as [|x l IH]; simpl; auto.
  destruct (p x); simpl; [discriminate|auto].
Qed.

Lemma outstanding_for_new_rental u b u0 b0 now :
  outstanding_for u b (new_rental u0 b0 now) = true -> u0 = u /\ b0 = b.
Proof.
  unfold outstanding_for, rental_user, rental_book. cbn.
  intros Hall. apply andb_prop in Hall as [Hall _].
  apply andb_prop in Hall as [Hu Hb].
  apply String.eqb_eq in Hu, Hb. auto.
Qed.

Lemma effect_one_outstanding rq st st' :
  effect rq st st' ->
  typed_ledger (rentals st) = true ->
  (forall u b, (count (outstanding_for u b) (rentals st) <= 1)%nat) ->
  forall u b, (count (outstanding_for u b) (rentals st') <= 1)%nat.
Proof.
  intros Heff Ht Hinv u b. specialize (Hinv u b) as Hub.
  assert (Hstamp : forall rental_id now r,
             Dict.get "returned_at" r = Some VNone ->
             (count (outstanding_for u b)
                (Dict.set rental_id (Dict.set "returned_at" (VStr now) r)
                   (rentals st)) <= 1)%nat).
  { intros rental_id now r Hret.
    pose proof (count_set (outstanding_for u b) rental_id
                  (Dict.set "returned_at" (VStr now) r) (rentals st)) as Hc.
    assert (Hnew : outstanding_for u b
                     (Dict.set "returned_at" (VStr now) r) = false).
    { unfold outstanding_for, outstanding. rewrite get_set_same.
      apply andb_false_r. }
    rewrite Hnew in Hc. cbn [b2n] in Hc. lia. }
  destruct Heff
    as [rq st
       |book_id user_id uuid now st b0 n0 Hb0 Hq Hpos Hany
       |rid user_id now st r book_id k0 b0 n0 Hr Hu Hret Hbid Hk Hb0 Hq
       |rid user_id now st r book_id k0 b0 Hr Hu Hret Hbid Hk Hb0 Hq];
    cbn [rented returned stamped rentals rented_to returned_to]; auto.
  pose proof (count_set (outstanding_for u b) uuid
                (new_rental user_id book_id now) (rentals st)) as Hc.
  destruct (outstanding_for u b (new_rental user_id book_id now)) eqn:Hnew.
  - apply outstanding_for_new_rental in Hnew as [-> ->].
    rewrite (py_any_typed _ _ _ Ht) in Hany. injection Hany as Hnone.
    unfold has_outstanding in Hnone.
    apply existsb_false_filter in Hnone.
    unfold count in Hc at 2. rewrite Hnone in Hc. cbn in Hc. lia.
  - cbn [b2n] in Hc. lia.
Qed.

(** X6.  No user ever holds two outstanding rentals of one book: in every
    state reached from an empty ledger, the ledger has at most one
    outstanding rental for each pair of a user and a book. *)
Theorem one_outstanding_per_user_and_book init rqs u b :
  rentals init = [] ->
  (count (outstanding_for u b) (rentals (serve rqs init)) <= 1)%nat.
Proof.
  intros Hempty.
  assert (Hgen : forall rqs st,
             forallb rent_made (Dict.values (rentals st)) = true ->
             (forall u b, (count (outstanding_for u b) (rentals st) <= 1)%nat) ->
             forall u b,
               (count (outstanding_for u b) (rentals (serve rqs st)) <= 1)%nat).
  { clear. induction rqs as [|rq rqs IH]; intros st Hmade Hinv; auto.
    intros u b. rewrite serve_cons. apply IH.
    - now apply rent_made_handle.
    - apply (effect_one_outstanding (handle_effect rq st)); auto.
      now apply rent_made_typed_ledger. }
  apply Hgen.
  - now rewrite Hempty.
  - intros u0 b0. rewrite Hempty. cbn. lia.
Qed.

Lemma one_outstanding_per_user_and_book_witness :
  (count (outstanding_for "alice" "123")
     (rentals (serve [RentBook "123" "alice" "r-1" "2024-05-01T10:00:00";
                      RentBook "123" "alice" "r-2" "2024-05-01T11:00:00"]
                     library_123)) <= 1)%nat.
Proof.
  exact (one_outstanding_per_user_and_book library_123
           [RentBook "123" "alice" "r-1" "2024-05-01T10:00:00";
            RentBook "123" "alice" "r-2" "2024-05-01T11:00:00"]
           "alice" "123" eq_refl).
Defined.

Lemma has_outstanding_after_rent u b uuid now ledger :
  has_outstanding u b (Dict.set uuid (new_rental u b now) ledger) = true.
Proof.
  unfold has_outstanding. apply existsb_exists.
  exists (new_rental u b now). split.
  - eapply get_In. apply get_set_same.
  - unfold outstanding_for, rental_user, rental_book. cbn.
    now rewrite !String.eqb_refl.
Qed.

(** X7.  Asking twice does not rent twice: right after a successful
    rent, the same user asking for the same book again is refused with
    400 and nothing changes, whichever identifier and time are drawn. *)
Theorem rent_twice_refused book_id user_id uuid now st st' rc uuid' now' :
  typed_ledger (rentals st) = true ->
  rent_book book_id user_id uuid now st = (st', Ok rc) ->
  exists detail,
    rent_book book_id user_id uuid' now' st' =
    (st', HTTPException 400 detail).
Proof.
  intros Ht. rewrite rent_book_cases.
  destruct (Dict.get (KStr book_id) (books st)) as [b|] eqn:Hb;
    [|discriminate].
  destruct (Dict.get "available_copies" b) as [v|]; [|discriminate].
  destruct (as_number v) as [n|]; [|discriminate].
  destruct (num_le n 0); [discriminate|].
  destruct (py_any _ _) as [[|]| |]; try discriminate.
  intros [= <- _].
  rewrite rent_book_cases. cbn [rented_to books rentals].
  rewrite !get_set_same, as_number_num_value.
  destruct (num_le (num_sub n 1) 0); [eauto|].
  rewrite py_any_typed by (apply forallb_values_set; auto).
  rewrite has_outstanding_after_rent. eauto.
Qed.

Lemma rent_twice_refused_witness :
  exists detail,
    rent_book "123" "alice" "r-9" "2024-05-01T12:00:00"
      (fst (rent_book "123" "alice" "r-1" "2024-05-01T10:00:00"
              library_123)) =
    (fst (rent_book "123" "alice" "r-1" "2024-05-01T10:00:00" library_123),
     HTTPException 400 detail).
Proof.
  exact (rent_twice_refused "123" "alice" "r-1" "2024-05-01T10:00:00"
           library_123 "r-9" "2024-05-01T12:00:00" eq_refl eq_refl).
Defined.

(* ===================================================================== *)
(** ** Copies are conserved *)
(* ===================================================================== *)






(* ===================================================================== *)
(** ** Rent, then return *)
(* ===================================================================== *)

Lemma return_book_run rid user_id now st r book_id k b a :
  Dict.get rid (rentals st) = Some r ->
  Dict.get "user_id" r = Some (VStr user_id) ->
  Dict.get "returned_at" r = Some VNone ->
  Dict.get "book_id" r = Some book_id ->
  hash book_id = Ok k ->
  Dict.get k (books st) = Some b ->
  available b = Some a ->
  return_book rid user_id now st =
  (returned st rid now r k b a,
   Ok {| message := "Book returned successfully";
         rental_id := rid;
         book := Dict.set "available_copies" (VInt (a + 1)) b |}).
Proof.
  intros Hr Hu Hret Hbid Hk Hb Ha.
  rewrite return_book_cases, Hr, Hu, Hret, Hbid, Hk, Hb.
  cbn [py_eq_str]. rewrite String.eqb_refl. cbn [negb is_none].
  unfold available in Ha.
  destruct b as [|f b]; [discriminate|].
  destruct (Dict.get "available_copies" (f :: b)) as [v|]; [|discriminate].
  now rewrite (as_number_int _ Ha).
Qed.

(** X9.  Returning undoes renting.  From tables in which the book's count
    is the integer [a > 0] and the user has no outstanding rental of the
    book, a rent under a new identifier followed by the return of that
    rental by the same user both succeed; the catalog is then exactly what
    it was, the ledger is the old one followed by the returned rental,
    and the user may rent the book again. *)
Theorem rent_then_return_restores book_id user_id uuid now now' st b a :
  typed_ledger (rentals st) = true ->
  Dict.get (KStr book_id) (books st) = Some b ->
  Dict.get "available_copies" b = Some (VInt a) ->
  0 < a ->
  has_outstanding user_id book_id (rentals st) = false ->
  Dict.get uuid (rentals st) = None ->
  exists st1 rc1 st2 rc2,
    rent_book book_id user_id uuid now st = (st1, Ok rc1) /\
    return_book (rental_id rc1) user_id now' st1 = (st2, Ok rc2) /\
    books st2 = books st /\
    book rc2 = b /\
    rentals st2 =
    rentals st ++ [(uuid, [("user_id", VStr user_id);
                           ("book_id", VStr book_id);
                           ("rented_at", VStr now);
                           ("returned_at", VStr now')])] /\
    has_outstanding user_id book_id (rentals st2) = false.
Proof.
  intros Ht Hb Hv Hpos Hno Hfresh.
  assert (Ha : available b = Some a).
  { unfold available. now rewrite Hv. }
  pose (b1 := Dict.set "available_copies" (VInt (a - 1)) b).
  assert (Hback : Dict.set "available_copies" (VInt (a - 1 + 1)) b1 = b).
  { unfold b1. rewrite set_set. replace (a - 1 + 1) with a by lia.
    now apply set_same_value. }
  assert (Hledger :
            Dict.set uuid
              (Dict.set "returned_at" (VStr now')
                 (new_rental user_id book_id now))
              (Dict.set uuid (new_rental user_id book_id now) (rentals st)) =
            rentals st ++ [(uuid, [("user_id", VStr user_id);
                                   ("book_id", VStr book_id);
                                   ("rented_at", VStr now);
                                   ("returned_at", VStr now')])]).
  { rewrite set_set. now apply set_absent. }
  exists (rented st book_id user_id uuid now b a),
         {| message := "Book rented successfully";
            rental_id := uuid; book := b1 |},
         {| books := books st;
            rentals := rentals st ++
                       [(uuid, [("user_id", VStr user_id);
                                ("book_id", VStr book_id);
                                ("rented_at", VStr now);
                                ("returned_at", VStr now')])] |},
         {| message := "Book returned successfully";
            rental_id := uuid; book := b |}.
  split.
  { rewrite (rent_book_typed_run book_id user_id uuid now st Ht Hb Ha).
    apply Z.leb_gt in Hpos. now rewrite Hpos, Hno. }
  split.
  { cbn [rental_id].
    rewrite (@return_book_run uuid user_id now'
               (rented st book_id user_id uuid now b a)
               (new_rental user_id book_id now)
               (VStr book_id) (KStr book_id) b1 (a - 1)).
    - unfold returned, returned_to.
      cbn [rented books rentals rented_to returned_to].
      fold b1. rewrite Hback, Hledger.
      now rewrite set_set, (set_same_value _ _ Hb).
    - cbn [rented rentals rented_to returned_to]. apply get_set_same.
    - reflexivity.
    - reflexivity.
    - reflexivity.
    - reflexivity.
    - cbn [rented books rented_to returned_to]. apply get_set_same.
    - apply available_set_copies. }
  cbn [books rentals book]. repeat apply conj; auto.
  unfold has_outstanding, Dict.values in *. rewrite map_app, existsb_app.
  rewrite Hno. cbn [map snd existsb orb].
  unfold outstanding_for, outstanding. cbn [Dict.get key_eqb].
  rewrite orb_false_r. apply andb_false_r.
Qed.

Lemma rent_then_return_restores_witness :
  exists st1 rc1 st2 rc2,
    rent_book "123" "alice" "r-1" "2024-05-01T10:00:00" library_123 =
    (st1, Ok rc1) /\
    return_book (rental_id rc1) "alice" "2024-05-02T10:00:00" st1 =
    (st2, Ok rc2) /\
    books st2 = books library_123.
Proof.
  destruct (rent_then_return_restores "123" "alice" "r-1"
              "2024-05-01T10:00:00" "2024-05-02T10:00:00" library_123
              (b:=book_123) (a:=2)
              eq_refl eq_refl eq_refl eq_refl eq_refl eq_refl)
    as (st1 & rc1 & st2 & rc2 & Hrent & Hret & Hbooks & _).
  exists st1, rc1, st2, rc2. auto.
Defined.

(* ===================================================================== *)
(** ** Responses in reachable states *)
(* ===================================================================== *)

Lemma typed_book_set_copies (b : Book) (n : Z) :
  typed_book (Dict.set "available_copies" (VInt n) b) = true.
Proof. unfold typed_book. now rewrite available_set_copies. Qed.

Lemma typed_book_quantity b n :
  typed_book b = true -> quantity b = Some n -> exists a, n = NInt a.
Proof.
  unfold typed_book. destruct (available b) as [a|] eqn:Ha; [|discriminate].
  intros _ Hq. rewrite (as_number_quantity _ Ha) in Hq.
  injection Hq as <-. eauto.
Qed.

Lemma typed_catalog_handle rq st :
  typed_catalog (books st) = true ->
  typed_catalog (books (handle rq st)) = true.
Proof.
  intros Ht. unfold typed_catalog in *.
  assert (Htyped : forall k b, Dict.get k (books st) = Some b ->
                               typed_book b = true).
  { intros k b Hb. rewrite forallb_forall in Ht. apply Ht.
    eapply get_In; eauto. }
  destruct (handle_effect rq st)
    as [rq st
       |book_id user_id uuid now st b0 n0 Hb0 Hq Hpos Hany
       |rid user_id now st r book_id k0 b0 n0 Hr Hu Hret Hbid Hk Hb0 Hq
       |rid user_id now st r book_id k0 b0 Hr Hu Hret Hbid Hk Hb0 Hq];
    cbn [stamped books rented_to returned_to]; auto.
  - destruct (typed_book_quantity _ (Htyped _ _ Hb0) Hq) as (a & ->).
    cbn [num_sub num_add num_value].
    apply forallb_values_set; auto using typed_book_set_copies.
  - destruct (typed_book_quantity _ (Htyped _ _ Hb0) Hq) as (a & ->).
    cbn [num_sub num_add num_value].
    apply forallb_values_set; auto using typed_book_set_copies.
Qed.

Lemma handler_status_typed rq st :
  typed_catalog (books st) = true ->
  typed_ledger (rentals st) = true ->
  In (handler_status rq st) (mentioned rq).
Proof.
  intros Hc Hl. unfold typed_catalog in Hc. unfold typed_ledger in Hl.
  rewrite forallb_forall in Hc, Hl.
  destruct rq as [|book_id|book_id user_id uuid now|user_id
                  |rid user_id now]; cbn [handler_status mentioned].
  - cbn. auto.
  - unfold display_details, bind, gets, raise_http, ret.
    destruct (Dict.get (KStr book_id) (books st)) as [[|f b]|]; cbn; auto.
  - rewrite rent_book_cases.
    destruct (Dict.get (KStr book_id) (books st)) as [b|] eqn:Hb;
      [|cbn; auto].
    specialize (Hc b (get_In _ _ Hb)). unfold typed_book, available in Hc.
    destruct (Dict.get "available_copies" b) as [v|]; [|discriminate].
    destruct (as_int v) as [a|] eqn:Ha; [|discriminate].
    rewrite (as_number_int _ Ha).
    rewrite py_any_typed
      by (unfold typed_ledger; now apply forallb_forall).
    destruct (num_le (NInt a) 0); [cbn; auto|].
    destruct (has_outstanding user_id book_id (rentals st)); cbn; auto.
  - rewrite list_user_books_run
      by (unfold typed_ledger; now apply forallb_forall).
    cbn. auto.
  - rewrite return_book_cases.
    destruct (Dict.get rid (rentals st)) as [r|] eqn:Hr; [|cbn; auto].
    specialize (Hl r (get_In _ _ Hr)). unfold typed_rental in Hl.
    destruct (Dict.get "user_id" r) as [[| | |u| | |]|]; try discriminate.
    destruct (Dict.get "book_id" r) as [[| | |s| | |]|]; try discriminate.
    destruct (Dict.get "rented_at" r); try discriminate.
    destruct (Dict.get "returned_at" r) as [ret_at|]; try discriminate.
    destruct (negb (py_eq_str (VStr u) user_id)); [cbn; auto|].
    destruct (negb (is_none ret_at)); [cbn; auto|].
    cbn [hash].
    destruct (Dict.get (KStr s) (books st)) as [[|f b]|] eqn:Hb;
      [cbn; auto| |cbn; auto].
    specialize (Hc _ (get_In _ _ Hb)). unfold typed_book, available in Hc.
    destruct (Dict.get "available_copies" (f :: b)) as [cnt|];
      [|discriminate].
    destruct (as_int cnt) as [a|] eqn:Ha; [|discriminate].
    rewrite (as_number_int _ Ha). cbn. auto.
Qed.

(** X10.  No handler ends in an uncaught exception: start from a catalog
    whose books all have an integer available-copy count and from an
    empty ledger; then, after any sequence of requests, the handler
    called for a request either returns or raises one of the
    [HTTPException]s written in it, never a [KeyError] or a [TypeError].
    This is about the handler functions, not about what the framework
    does around them. *)
Theorem handlers_raise_only_http_errors init rqs rq :
  rentals init = [] ->
  typed_catalog (books init) = true ->
  In (handler_status rq (serve rqs init)) (mentioned rq) /\
  handler_status rq (serve rqs init) <> 500.
Proof.
  intros Hempty Hc.
  assert (Hin : In (handler_status rq (serve rqs init)) (mentioned rq)).
  { apply handler_status_typed.
    - clear Hempty. revert init Hc.
      induction rqs as [|r0 rqs IH]; intros init Hc; auto.
      rewrite serve_cons. apply IH. now apply typed_catalog_handle.
    - now apply typed_ledger_reachable. }
  split; [exact Hin|].
  intros H500. rewrite H500 in Hin.
  destruct rq; cbn in Hin; intuition discriminate.
Qed.

Lemma handlers_raise_only_http_errors_witness :
  In (handler_status (ReturnBook "r-1" "bob" "2024-05-02T10:00:00")
        (serve [RentBook "123" "alice" "r-1" "2024-05-01T10:00:00"]
               library_123))
     [200; 404; 403; 400].
Proof.
  exact (proj1 (handlers_raise_only_http_errors library_123
                  [RentBook "123" "alice" "r-1" "2024-05-01T10:00:00"]
                  (ReturnBook "r-1" "bob" "2024-05-02T10:00:00")
                  eq_refl eq_refl)).
Defined.

(* ===================================================================== *)
(** ** The receipt and the catalog *)
(* ===================================================================== *)

Lemma display_details_found book_id st b :
  Dict.get (KStr book_id) (books st) = Some b ->
  b <> [] ->
  display_details book_id st = (st, Ok b).
Proof.
  intros Hb Hne. unfold display_details, bind, gets, raise_http, ret.
  rewrite Hb. destruct b; [congruence|reflexivity].
Qed.

(** X11.  The book in a receipt is the catalog's record: right after a
    successful rent, and right after a successful return of a rental
    whose book identifier is the string [book_id], [display_details] of
    that book answers with exactly the book of the receipt. *)
Theorem receipt_book_is_displayed :
  (forall book_id user_id uuid now st st' rc,
     rent_book book_id user_id uuid now st = (st', Ok rc) ->
     display_details book_id st' = (st', Ok (book rc))) /\
  (forall rid user_id now st st' rc r book_id,
     return_book rid user_id now st = (st', Ok rc) ->
     Dict.get rid (rentals st) = Some r ->
     Dict.get "book_id" r = Some (VStr book_id) ->
     display_details book_id st' = (st', Ok (book rc))).
Proof.
  split.
  - intros book_id user_id uuid now st st' rc. rewrite rent_book_cases.
    destruct (Dict.get (KStr book_id) (books st)) as [b|]; [|discriminate].
    destruct (Dict.get "available_copies" b) as [v|]; [|discriminate].
    destruct (as_number v) as [n|]; [|discriminate].
    destruct (num_le n 0); [discriminate|].
    destruct (py_any _ _) as [[|]| |]; try discriminate.
    intros [= <- <-]. cbn [book]. apply display_details_found.
    + cbn [rented books rented_to returned_to]. apply get_set_same.
    + apply set_nonempty.
  - intros rid user_id now st st' rc r book_id Hrun Hr Hbid.
    rewrite return_book_cases, Hr in Hrun.
    destruct (Dict.get "user_id" r) as [owner|]; [|discriminate].
    destruct (negb (py_eq_str owner user_id)); [discriminate|].
    destruct (Dict.get "returned_at" r) as [ret_at|]; [|discriminate].
    destruct (negb (is_none ret_at)); [discriminate|].
    rewrite Hbid in Hrun. cbn [hash] in Hrun.
    destruct (Dict.get (KStr book_id) (books st)) as [[|f b]|];
      try discriminate.
    destruct (Dict.get "available_copies" (f :: b)) as [v|];
      [|discriminate].
    destruct (as_number v) as [n|]; [|discriminate].
    injection Hrun as <- <-. cbn [book]. apply display_details_found.
    + cbn [returned books rented_to returned_to]. apply get_set_same.
    + exact (set_nonempty "available_copies" (num_value (num_add n 1))
               (f :: b)).
Qed.

Lemma receipt_book_is_displayed_witness :
  display_details "123"
    (fst (rent_book "123" "alice" "r-1" "2024-05-01T10:00:00" library_123)) =
  (fst (rent_book "123" "alice" "r-1" "2024-05-01T10:00:00" library_123),
   Ok [("isbn", VStr "123"); ("title", VStr "A Book");
       ("author", VStr "An Author"); ("total_copies", VInt 2);
       ("available_copies", VInt 1)]).
Proof.
  exact (proj1 receipt_book_is_displayed
           "123" "alice" "r-1" "2024-05-01T10:00:00" library_123
           _ _ eq_refl).
Defined.

(* ===================================================================== *)
(** ** Listings after a rent and after a return *)
(* ===================================================================== *)

Lemma flat_map_ext_In {A B} (f g : A -> list B) (l : list A) :
  (forall x, In x l -> f x = g x) -> flat_map f l = flat_map g l.
Proof.
  induction l as [|x l IH]; simpl; intros Hext; auto.
  rewrite Hext by auto. rewrite IH; auto.
Qed.

Lemma filter_filter {A} (p q : A -> bool) (l : list A) :
  filter q (filter p l) = filter (fun x => p x && q x) l.
Proof.
  induction l as [|x l IH]; simpl; auto.
  destruct (p x); simpl; [|exact IH].
  destruct (q x); now rewrite IH.
Qed.

Lemma typed_rental_stamped r v :
  typed_rental r = true ->
  typed_rental (Dict.set "returned_at" v r) = true.
Proof.
  unfold typed_rental.
  rewrite get_set_same, !get_set_other by discriminate.
  destruct (Dict.get "user_id" r) as [[| | |u| | |]|]; try discriminate.
  destruct (Dict.get "book_id" r) as [[| | |b| | |]|]; try discriminate.
  destruct (Dict.get "rented_at" r); try discriminate.
  destruct (Dict.get "returned_at" r); try discriminate.
  auto.
Qed.

Lemma resolves_set k b b' catalog r :
  Dict.get k catalog = Some b ->
  resolves (Dict.set k b' catalog) r = resolves catalog r.
Proof.
  intros Hb. unfold resolves, resolve.
  destruct (Dict.get "book_id" r) as [v|]; auto.
  destruct (hash v) as [k'| |]; auto.
  destruct (key_eqb_spec k k') as [<-|Hne].
  - now rewrite get_set_same, Hb.
  - now rewrite get_set_other.
Qed.

Lemma listing_other_book book_id b' catalog r :
  typed_rental r = true ->
  rental_book book_id r = false ->
  listing (Dict.set (KStr book_id) b' catalog) r = listing catalog r.
Proof.
  unfold typed_rental, rental_book, listing, resolve.
  destruct (Dict.get "user_id" r) as [[| | |u| | |]|]; try discriminate.
  destruct (Dict.get "book_id" r) as [[| | |s| | |]|]; try discriminate.
  intros _ Hne. cbn [py_eq_str] in Hne. apply String.eqb_neq in Hne.
  cbn [hash]. rewrite get_set_other by congruence. reflexivity.
Qed.

(** X12.  A rent shows up in the user's listing, and only there.  Over a
    ledger of typed rentals, after a successful rent under a new
    identifier the listing of the user is the listing of before followed
    by one entry: the book of the receipt with [rental_id] set to [None]
    and [rented_at] set to the time of the rent. *)
Theorem rent_then_list book_id user_id uuid now st st' rc :
  typed_ledger (rentals st) = true ->
  Dict.get uuid (rentals st) = None ->
  rent_book book_id user_id uuid now st = (st', Ok rc) ->
  exists before,
    list_user_books user_id st = (st, Ok before) /\
    list_user_books user_id st' =
    (st', Ok (before ++ [listed (book rc) now])).
Proof.
  intros Ht Hfresh. rewrite rent_book_cases.
  destruct (Dict.get (KStr book_id) (books st)) as [b|] eqn:Hb;
    [|discriminate].
  destruct (Dict.get "available_copies" b) as [v|]; [|discriminate].
  destruct (as_number v) as [n|]; [|discriminate].
  destruct (num_le n 0); [discriminate|].
  rewrite (py_any_typed _ _ _ Ht).
  destruct (has_outstanding user_id book_id (rentals st)) eqn:Hno;
    [discriminate|].
  intros [= <- <-]. cbn [book].
  eexists. split; [now apply list_user_books_run|].
  rewrite list_user_books_run.
  2:{ cbn [rented rentals rented_to returned_to].
      apply forallb_values_set; auto. }
  f_equal. f_equal. cbn [rented books rentals rented_to returned_to].
  rewrite (set_absent _ _ _ Hfresh).
  unfold Dict.values at 1. rewrite map_app, filter_app, flat_map_app.
  fold (Dict.values (rentals st)). f_equal.
  - apply flat_map_ext_In. intros r Hin.
    apply filter_In in Hin as [Hin Hopen].
    unfold typed_ledger in Ht. rewrite forallb_forall in Ht.
    apply listing_other_book; auto.
    unfold has_outstanding in Hno.
    assert (Hr : outstanding_for user_id book_id r = false).
    { destruct (outstanding_for user_id book_id r) eqn:E; auto.
      assert (Hex : existsb (outstanding_for user_id book_id)
                      (Dict.values (rentals st)) = true)
        by (apply existsb_exists; eauto).
      congruence. }
    unfold outstanding_for in Hr. unfold open_for in Hopen.
    apply andb_prop in Hopen as [Hu Ho]. rewrite Hu, Ho in Hr.
    destruct (rental_book book_id r); auto.
  - cbn [map snd filter]. unfold open_for, rental_user, outstanding.
    cbn [new_rental Dict.get key_eqb string_Hashable].
    cbn. rewrite String.eqb_refl. cbn.
    unfold listing, resolve. cbn [Dict.get key_eqb string_Hashable].
    cbn. rewrite get_set_same. reflexivity.
Qed.

Lemma rent_then_list_witness :
  exists before,
    list_user_books "bea" corrupted = (corrupted, Ok before) /\
    list_user_books "bea"
      (fst (rent_book "7" "bea" "r-2" "2024-05-02T09:00:00" corrupted)) =
    (fst (rent_book "7" "bea" "r-2" "2024-05-02T09:00:00" corrupted),
     Ok (before ++
         [listed [("isbn", VStr "7"); ("total_copies", VInt 1);
                  ("available_copies", VInt 0)]
                 "2024-05-02T09:00:00"])).
Proof.
  exact (rent_then_list "7" "bea" "r-2" "2024-05-02T09:00:00" corrupted
           eq_refl eq_refl eq_refl).
Defined.

(** X13.  A return takes one entry off the listing of the user who
    returned and leaves the length of every other user's listing alone:
    over a ledger of typed rentals, after a successful return by
    [user_id], the listing of any user [u] before has as many entries as
    after, plus one when [u] is [user_id]. *)
Theorem return_then_list rid user_id now st st' rc u :
  typed_ledger (rentals st) = true ->
  return_book rid user_id now st = (st', Ok rc) ->
  exists before after,
    list_user_books u st = (st, Ok before) /\
    list_user_books u st' = (st', Ok after) /\
    List.length before =
    (List.length after + if String.eqb user_id u then 1 else 0)%nat.
Proof.
  intros Ht. rewrite return_book_cases.
  destruct (Dict.get rid (rentals st)) as [r|] eqn:Hr; [|discriminate].
  destruct (Dict.get "user_id" r) as [owner|] eqn:Hu; [|discriminate].
  destruct (py_eq_str owner user_id) eqn:Heq; [|discriminate].
  apply py_eq_str_true in Heq. subst owner. cbn [negb].
  destruct (Dict.get "returned_at" r) as [ret_at|] eqn:Hret;
    [|discriminate].
  destruct (is_none ret_at) eqn:Hnone; [|discriminate]. cbn [negb].
  destruct (Dict.get "book_id" r) as [book_id|] eqn:Hbid; [|discriminate].
  destruct (hash book_id) as [k| |] eqn:Hk; try discriminate.
  destruct (Dict.get k (books st)) as [[|f b]|] eqn:Hb; try discriminate.
  destruct (Dict.get "available_copies" (f :: b)) as [v|]; [|discriminate].
  destruct (as_number v) as [n|]; [|discriminate].
  intros [= <- _].
  assert (Ht' : typed_ledger
                  (rentals (returned_to st rid now r k (f :: b)
                              (num_value (num_add n 1)))) = true).
  { cbn [returned rentals rented_to returned_to].
    apply forallb_values_set; auto.
    apply typed_rental_stamped.
    unfold typed_ledger in Ht. rewrite forallb_forall in Ht.
    apply Ht. eapply get_In; eauto. }
  eexists _, _. split; [now apply list_user_books_run|].
  split; [now apply list_user_books_run|].
  rewrite !length_flat_map_listing, !filter_filter.
  cbn [returned books rentals rented_to returned_to].
  match goal with
  | |- context [resolves (Dict.set k ?b' (books st))] =>
      rewrite (filter_ext
                 (fun r0 => open_for u r0
                            && resolves (Dict.set k b' (books st)) r0)
                 (fun r0 => open_for u r0 && resolves (books st) r0))
        by (intros r0; f_equal; eapply resolves_set; exact Hb)
  end.
  pose proof (count_set (fun r0 => open_for u r0 && resolves (books st) r0)
                rid (Dict.set "returned_at" (VStr now) r) (rentals st))
    as Hc.
  unfold count in Hc. rewrite Hr in Hc.
  assert (Hold : open_for u r && resolves (books st) r = String.eqb user_id u).
  { unfold open_for, rental_user, outstanding, resolves, resolve.
    rewrite Hu, Hret, Hnone, Hbid, Hk, Hb. cbn [py_eq_str].
    now rewrite !andb_true_r. }
  assert (Hnew : open_for u (Dict.set "returned_at" (VStr now) r)
                 && resolves (books st) (Dict.set "returned_at" (VStr now) r)
                 = false).
  { unfold open_for, outstanding. rewrite get_set_same. cbn [is_none].
    now rewrite andb_false_r. }
  rewrite Hold, Hnew in Hc. cbn [b2n] in Hc.
  unfold b2n in Hc. lia.
Qed.

Lemma return_then_list_witness :
  exists before after,
    list_user_books "ann" lent_out = (lent_out, Ok before) /\
    list_user_books "ann"
      (fst (return_book "r-1" "ann" "2024-05-03T08:00:00" lent_out)) =
    (fst (return_book "r-1" "ann" "2024-05-03T08:00:00" lent_out),
     Ok after) /\
    List.length before = (List.length after + 1)%nat.
Proof.
  exact (return_then_list "r-1" "ann" "2024-05-03T08:00:00" lent_out "ann"
           eq_refl eq_refl).
Defined.

(* ===================================================================== *)
(** ** More on the catalog load *)
(* ===================================================================== *)

Lemma load_get src k b :
  Dict.get k (load src) = Some b ->
  exists entries catalog entry,
    source_entries src = entries /\
    index_by_isbn entries [] = Ok catalog /\
    Dict.get k catalog = Some entry /\
    fill_available entry = Ok b.
Proof.
  unfold load, load_try, source_entries.
  destruct src as [|data]; [discriminate|].
  destruct (get_books data) as [listed0| |]; try discriminate. cbn [rbind].
  destruct (py_iter listed0) as [entries| |]; try discriminate. cbn [rbind].
  destruct (index_by_isbn entries []) as [catalog| |] eqn:Hidx;
    try discriminate.
  cbn [rbind].
  destruct (fill_all catalog) as [filled| |] eqn:Hfill; try discriminate.
  intros Hk. destruct (fill_all_get _ _ Hfill Hk) as (entry & Hentry & Hb).
  exists entries, catalog, entry. auto.
Qed.

(** X14.  After the load every book has an ["available_copies"] field,
    as the comment above [load] promises, and is filed under the hash of
    its own ["isbn"]. *)
Theorem loaded_book_is_initialised src k b :
  Dict.get k (load src) = Some b ->
  Dict.mem "available_copies" b = true /\
  exists isbn, Dict.get "isbn" b = Some isbn /\ hash isbn = Ok k.
Proof.
  intros Hk.
  destruct (load_get _ _ Hk) as (entries & catalog & entry & _ & Hidx
                                 & Hentry & Hfill).
  destruct (index_by_isbn_get _ _ _ Hidx Hentry)
    as [Habs|(isbn & _ & Hisbn & Hhash)]; [discriminate|].
  unfold fill_available, getitem in Hfill.
  destruct (Dict.mem "available_copies" entry) eqn:Hmem; cbn [negb] in Hfill.
  - injection Hfill as <-. split; eauto.
  - destruct (Dict.get "totalCopies" entry) as [total|]; [|discriminate].
    cbn [rbind] in Hfill. injection Hfill as <-. split.
    + unfold Dict.mem. now rewrite get_set_same.
    + exists isbn. rewrite get_set_other by discriminate. auto.
Qed.

Lemma loaded_book_is_initialised_witness :
  Dict.mem "available_copies"
    [("isbn", VStr "123"); ("title", VStr "A Book");
     ("author", VStr "An Author"); ("totalCopies", VInt 2);
     ("available_copies", VInt 2)] = true /\
  exists isbn,
    Dict.get "isbn"
      [("isbn", VStr "123"); ("title", VStr "A Book");
       ("author", VStr "An Author"); ("totalCopies", VInt 2);
       ("available_copies", VInt 2)] = Some isbn /\
    hash isbn = Ok (KStr "123").
Proof.
  exact (loaded_book_is_initialised books_json (KStr "123") eq_refl).
Defined.

Lemma index_by_isbn_NoDup entries :
  forall acc catalog,
    NoDup (Dict.keys acc) ->
    index_by_isbn entries acc = Ok catalog ->
    NoDup (Dict.keys catalog).
Proof.
  induction entries as [|entry rest IH]; intros acc catalog Hnd Hrun.
  - cbn in Hrun. now injection Hrun as <-.
  - cbn [index_by_isbn] in Hrun.
    destruct (subscript entry "isbn") as [isbn| |]; try discriminate.
    cbn [rbind] in Hrun.
    destruct (hash isbn) as [k| |]; try discriminate. cbn [rbind] in Hrun.
    destruct entry as [| | | | |fields|]; try discriminate.
    eapply IH; [|exact Hrun]. now apply NoDup_keys_set.
Qed.

Lemma fill_all_keys catalog :
  forall filled,
    fill_all catalog = Ok filled -> Dict.keys filled = Dict.keys catalog.
Proof.
  induction catalog as [|[k b] rest IH]; intros filled Hrun.
  - cbn in Hrun. now injection Hrun as <-.
  - cbn [fill_all] in Hrun.
    destruct (fill_available b) as [b'| |]; try discriminate.
    cbn [rbind] in Hrun.
    destruct (fill_all rest) as [rest'| |]; try discriminate.
    cbn [rbind] in Hrun. injection Hrun as <-.
    unfold Dict.keys in *. cbn [map fst]. now rewrite (IH _ eq_refl).
Qed.

(** X15.  The loaded catalog has one book per identifier: its keys are
    pairwise distinct, whatever the document repeats. *)
Theorem loaded_keys_distinct src : NoDup (Dict.keys (load src)).
Proof.
  unfold load, load_try.
  destruct src as [|data]; [constructor|].
  destruct (get_books data) as [listed0| |]; try constructor. cbn [rbind].
  destruct (py_iter listed0) as [entries| |]; try constructor. cbn [rbind].
  destruct (index_by_isbn entries []) as [catalog| |] eqn:Hidx;
    try constructor.
  cbn [rbind].
  destruct (fill_all catalog) as [filled| |] eqn:Hfill; try constructor.
  rewrite (fill_all_keys _ Hfill).
  eapply index_by_isbn_NoDup; [|exact Hidx]. constructor.
Qed.

Lemma index_by_isbn_entries entries :
  forall acc catalog entry,
    index_by_isbn entries acc = Ok catalog ->
    In entry entries ->
    is_ok (entry_key entry) = true.
Proof.
  induction entries as [|e rest IH]; intros acc catalog entry Hrun Hin.
  - destruct Hin.
  - cbn [index_by_isbn] in Hrun. unfold entry_key.
    destruct (subscript e "isbn") as [isbn| |] eqn:Hsub; try discriminate.
    cbn [rbind] in Hrun.
    destruct (hash isbn) as [k| |] eqn:Hk; try discriminate.
    cbn [rbind] in Hrun.
    destruct e as [| | | | |fields|]; try discriminate.
    destruct Hin as [<-|Hin].
    + rewrite Hsub. cbn [rbind]. now rewrite Hk.
    + eapply IH; eauto.
Qed.

(** X16.  The load is all or nothing: one entry of the document that is
    not an object, has no ["isbn"], or has an ["isbn"] that cannot be a
    dictionary key (a list or an object) leaves the whole catalog empty,
    whatever the other entries are. *)
Theorem malformed_entry_empties_catalog src entry :
  In entry (source_entries src) ->
  is_ok (entry_key entry) = false ->
  load src = [].
Proof.
  unfold load, load_try, source_entries.
  destruct src as [|data]; [reflexivity|].
  destruct (get_books data) as [listed0| |]; try reflexivity. cbn [rbind].
  destruct (py_iter listed0) as [entries| |]; try reflexivity. cbn [rbind].
  intros Hin Hbad.
  destruct (index_by_isbn entries []) as [catalog| |] eqn:Hidx;
    try reflexivity.
  rewrite (index_by_isbn_entries _ _ _ Hidx Hin) in Hbad. discriminate.
Qed.

Lemma malformed_entry_empties_catalog_witness :
  load (Document (VDict [("books", VList [
          VDict [("isbn", VStr "123"); ("totalCopies", VInt 2)];
          VDict [("title", VStr "No Number"); ("totalCopies", VInt 1)]])]))
  = [].
Proof.
  refine (malformed_entry_empties_catalog
            (Document (VDict [("books", VList [
               VDict [("isbn", VStr "123"); ("totalCopies", VInt 2)];
               VDict [("title", VStr "No Number");
                      ("totalCopies", VInt 1)]])]))
            (VDict [("title", VStr "No Number"); ("totalCopies", VInt 1)])
            _ eq_refl).
  cbn. auto.
Defined.

Lemma not_In_keys_get {K V : Type} `{HashableLaws K}
    (k : K) (d : Dict.t K V) :
  ~ In k (Dict.keys d) -> Dict.get k d = None.
Proof.
  unfold Dict.keys. induction d as [|[k' v'] d IH]; simpl; auto.
  intros Hnin. destruct (key_eqb_spec k k') as [->|Hne].
  - exfalso. auto.
  - apply IH. intros Hin. auto.
Qed.

Lemma index_by_isbn_distinct es :
  forall ks acc,
    map entry_key (map VDict es) = map Ok ks ->
    NoDup (Dict.keys acc ++ ks) ->
    index_by_isbn (map VDict es) acc = Ok (acc ++ combine ks es).
Proof.
  induction es as [|e es IH]; intros ks acc Hkeys Hnd.
  - destruct ks; [|discriminate]. cbn. now rewrite app_nil_r.
  - destruct ks as [|k ks]; [discriminate|].
    cbn [map] in Hkeys. injection Hkeys as Hk Hrest.
    cbn [map index_by_isbn]. unfold entry_key in Hk.
    destruct (subscript (VDict e) "isbn") as [isbn| |]; try discriminate.
    cbn [rbind] in Hk |- *. rewrite Hk. cbn [rbind].
    assert (Hfresh : Dict.get k acc = None).
    { apply not_In_keys_get. intros Hin.
      apply NoDup_remove_2 in Hnd. apply Hnd. apply in_or_app. now left. }
    rewrite (set_absent _ _ _ Hfresh).
    rewrite IH with (ks := ks); auto.
    + now rewrite <- app_assoc.
    + unfold Dict.keys in *. rewrite map_app, <- app_assoc. exact Hnd.
Qed.

Lemma fill_available_countable e :
  countable e = true -> fill_available e = Ok (normalised e).
Proof.
  unfold countable, fill_available, normalised, field_or_none, getitem,
    Dict.mem.
  destruct (Dict.get "available_copies" e); cbn; auto.
  destruct (Dict.get "totalCopies" e); cbn; [auto|discriminate].
Qed.

Lemma fill_all_combine es :
  forall ks,
    forallb countable es = true ->
    fill_all (combine ks es) = Ok (combine ks (map normalised es)).
Proof.
  induction es as [|e es IH]; intros ks Hall.
  - destruct ks; reflexivity.
  - destruct ks as [|k ks]; [reflexivity|].
    cbn [forallb] in Hall. apply andb_prop in Hall as [He Hes].
    cbn [combine map fill_all].
    rewrite (fill_available_countable _ He). cbn [rbind].
    now rewrite (IH ks Hes).
Qed.

(** X17.  What a well-formed document loads to.  When the entries of the
    document are objects whose ["isbn"]s hash to pairwise distinct keys
    and each entry has ["available_copies"] or ["totalCopies"], the
    catalog holds, in document order, one book per entry under its key,
    each book being the entry with ["available_copies"] defaulted from
    ["totalCopies"]; [list_books] then lists these books in document
    order. *)
Theorem load_well_formed top es ks st :
  Dict.get "books" top = Some (VList (map VDict es)) ->
  map entry_key (map VDict es) = map Ok ks ->
  NoDup ks ->
  forallb countable es = true ->
  books st = load (Document (VDict top)) ->
  load (Document (VDict top)) = combine ks (map normalised es) /\
  list_books st = (st, Ok (map normalised es)).
Proof.
  intros Hbooks Hkeys Hnd Hall Hst.
  assert (Hload : load (Document (VDict top))
                  = combine ks (map normalised es)).
  { unfold load, load_try, get_books. rewrite Hbooks. cbn [rbind py_iter].
    rewrite (index_by_isbn_distinct es ks []) by auto.
    cbn [rbind app]. now rewrite fill_all_combine. }
  split; [exact Hload|].
  unfold list_books, gets. rewrite Hst, Hload. do 2 f_equal.
  unfold Dict.values.
  assert (Hlen : List.length ks = List.length (map normalised es)).
  { rewrite length_map. apply (f_equal (@List.length _)) in Hkeys.
    now rewrite !length_map in Hkeys. }
  clear - Hlen. revert ks Hlen.
  induction (map normalised es) as [|x xs IH]; intros ks Hlen.
  - destruct ks; reflexivity.
  - destruct ks as [|k ks]; [discriminate|].
    cbn. f_equal. apply IH. now injection Hlen.
Qed.

Lemma load_well_formed_witness :
  list_books {| books := load books_json; rentals := [] |} =
  ({| books := load books_json; rentals := [] |},
   Ok [[("isbn", VStr "123"); ("title", VStr "A Book");
        ("author", VStr "An Author"); ("totalCopies", VInt 2);
        ("available_copies", VInt 2)];
       [("isbn", VStr "456"); ("title", VStr "Another Book");
        ("author", VStr "An Author"); ("totalCopies", VInt 5);
        ("available_copies", VInt 3)]]).
Proof.
  assert (Hnd : NoDup [KStr "123"; KStr "456"]).
  { constructor; [|constructor; [intros []|constructor]].
    intros [Heq|[]]. discriminate. }
  exact (proj2 (@load_well_formed
                  [("books", VList [
                     VDict [("isbn", VStr "123"); ("title", VStr "A Book");
                            ("author", VStr "An Author");
                            ("totalCopies", VInt 2)];
                     VDict [("isbn", VStr "456");
                            ("title", VStr "Another Book");
                            ("author", VStr "An Author");
                            ("totalCopies", VInt 5);
                            ("available_copies", VInt 3)]])]
                  [[("isbn", VStr "123"); ("title", VStr "A Book");
                    ("author", VStr "An Author"); ("totalCopies", VInt 2)];
                   [("isbn", VStr "456"); ("title", VStr "Another Book");
                    ("author", VStr "An Author"); ("totalCopies", VInt 5);
                    ("available_copies", VInt 3)]]
                  [KStr "123"; KStr "456"]
                  {| books := load books_json; rentals := [] |}
                  eq_refl eq_refl Hnd eq_refl eq_refl)).
Defined.

(* ===================================================================== *)
(** ** Book details in service *)
(* ===================================================================== *)

Lemma hash_KStr v s : hash v = Ok (KStr s) -> v = VStr s.
Proof.
  destruct v as [|[|]| | | | |x]; cbn; intros Heq; try discriminate.
  - now injection Heq as <-.
  - destruct (float_integer x); discriminate.
Qed.

(** X18.  In service, that is after the catalog has been loaded and any
    sequence of requests handled, [display_details] answers 404 exactly
    for the identifiers that are not keys of the loaded catalog; for the
    others it answers with a book whose ["isbn"] is the identifier
    asked for. *)
Theorem display_details_in_service src init rqs book_id :
  books init = load src ->
  (Dict.mem (KStr book_id) (load src) = false ->
   display_details book_id (serve rqs init) =
   (serve rqs init, HTTPException 404 "Book was not found")) /\
  (Dict.mem (KStr book_id) (load src) = true ->
   exists b,
     display_details book_id (serve rqs init) = (serve rqs init, Ok b) /\
     Dict.get "isbn" b = Some (VStr book_id)).
Proof.
  intros Hinit. split.
  - intros Hmem.
    assert (Hnow : Dict.mem (KStr book_id) (books (serve rqs init)) = false).
    { now rewrite mem_keys, serve_books_keys, <- mem_keys, Hinit. }
    unfold display_details, bind, gets, raise_http, ret.
    unfold Dict.mem in Hnow.
    destruct (Dict.get (KStr book_id) (books (serve rqs init)));
      [discriminate|reflexivity].
  - intros Hmem. unfold Dict.mem in Hmem.
    destruct (Dict.get (KStr book_id) (load src)) as [b0|] eqn:Hb0;
      [|discriminate].
    destruct (load_get _ _ Hb0) as (entries & catalog & entry & _ & Hidx
                                    & Hentry & Hfill).
    destruct (index_by_isbn_get _ _ _ Hidx Hentry)
      as [Habs|(isbn & _ & Hisbn & Hhash)]; [discriminate|].
    apply hash_KStr in Hhash. subst isbn.
    assert (Hisbn0 : Dict.get "isbn" b0 = Some (VStr book_id)).
    { unfold fill_available, getitem in Hfill.
      destruct (Dict.mem "available_copies" entry); cbn [negb] in Hfill.
      - now injection Hfill as <-.
      - destruct (Dict.get "totalCopies" entry); [|discriminate].
        cbn [rbind] in Hfill. injection Hfill as <-.
        now rewrite get_set_other by discriminate. }
    rewrite <- Hinit in Hb0.
    destruct (serve_book_fields rqs init (KStr book_id) Hb0)
      as (b & Hb & Hfields).
    exists b.
    assert (Hb_isbn : Dict.get "isbn" b = Some (VStr book_id)).
    { rewrite Hfields by discriminate. exact Hisbn0. }
    split; [|exact Hb_isbn].
    apply display_details_found; auto.
    intros ->. discriminate.
Qed.

Lemma display_details_in_service_witness :
  exists b,
    display_details "456"
      (serve [RentBook "456" "alice" "r-1" "2024-05-01T10:00:00"]
             {| books := load books_json; rentals := [] |}) =
    (serve [RentBook "456" "alice" "r-1" "2024-05-01T10:00:00"]
           {| books := load books_json; rentals := [] |}, Ok b) /\
    Dict.get "isbn" b = Some (VStr "456").
Proof.
  exact (proj2 (display_details_in_service books_json
                  {| books := load books_json; rentals := [] |}
                  [RentBook "456" "alice" "r-1" "2024-05-01T10:00:00"]
                  "456" eq_refl) eq_refl).
Defined.
